(** * beanprice: the Alphavantage price source

    A shallow embedding of [beanprice/sources/alphavantage.py] and the
    properties of its ticker parser, its API client and its two entry
    points [get_latest_price] and [get_historical_price].

    Python values are modelled as follows.
    - [str] is [string]; a character is an 8-bit code.  What the Unicode
      tables of [re] and [str.lower] say about the codes from 128 on is
      left open (section variables [uni_alnum] and [uni_lower]).
    - A decoded JSON document is a [json] value; a JSON object is a finite
      map from strings to values.
    - An exception is a value of [exn]; a computation that may raise
      returns a [result].
    - [datetime] is a proleptic Gregorian ordinal, the microseconds since
      midnight and an optional [tzinfo], with the range checks of the
      [datetime] module.  How [strftime] prints a year below 1000 is left
      open (parameter [short_year]).
    - The process environment, the remote server and the clock form a
      [world]; the observable effects of a call (HTTP requests, sleeps,
      log records) are appended to a trace of [event]s. *)

From Stdlib Require Import ZArith Lia Bool List.
From Stdlib Require Import Ascii String.
From stdpp Require Import base option gmap strings pretty.
From Equations Require Import Equations.

Local Set Warnings "-register-all".

Open Scope string_scope.
Open Scope Z_scope.

(** ** Strings

    ["x in s"] on two strings is the substring test; [s.lower()] maps
    [A-Z] to [a-z] and leaves the other ASCII characters alone. *)

Definition dquote : string := String "034"%char EmptyString.
Definition newline : string := String "010"%char EmptyString.

Fixpoint is_substring (needle hay : string) : bool :=
  String.prefix needle hay ||
  match hay with
  | EmptyString => false
  | String _ hay' => is_substring needle hay'
  end.

Fixpoint drop_chars (n : nat) (s : string) : string :=
  match n, s with
  | S n', String _ s' => drop_chars n' s'
  | _, _ => s
  end.

Definition code (c : ascii) : Z := Z.of_nat (nat_of_ascii c).

Definition is_ascii_upper (c : ascii) : bool := (65 <=? code c) && (code c <=? 90).
Definition is_ascii_lower (c : ascii) : bool := (97 <=? code c) && (code c <=? 122).
Definition is_ascii_digit (c : ascii) : bool := (48 <=? code c) && (code c <=? 57).

(** ** JSON documents, as [json.loads] returns them *)

Inductive json : Type :=
| JNull
| JBool (b : bool)
| JNumber (literal : string)
| JStr (s : string)
| JList (l : list json)
| JDict (m : gmap string json).

(** ** Exceptions and results *)

(** The payload of an [AlphavantageApiError].  The module builds the two
    messages ["Invalid response ({}): {}".format(status_code, text)] and
    ["Invalid response: {}".format(data["Error Message"])]; the payload
    keeps the format arguments. *)
Inductive api_error : Type :=
| InvalidStatus (status_code : Z) (text : string)
| InvalidMessage (message : json).

Inductive exn : Type :=
| ValueError (msg : string)
| AlphavantageApiError (detail : api_error)
| KeyError (key : string)
| TypeError
| AttributeError
| OverflowError
| LibraryError (name : string).

(** [class AlphavantageApiError(ValueError)]: an API error is a
    [ValueError], a plain [ValueError] is not an API error. *)
Definition isinstance_AlphavantageApiError (e : exn) : bool :=
  match e with AlphavantageApiError _ => true | _ => false end.

Definition isinstance_ValueError (e : exn) : bool :=
  match e with ValueError _ | AlphavantageApiError _ => true | _ => false end.

Inductive result (A : Type) : Type :=
| OK (a : A)
| Raise (e : exn).
Arguments OK {A} a.
Arguments Raise {A} e.

Definition rbind {A B} (r : result A) (k : A -> result B) : result B :=
  match r with OK a => k a | Raise e => Raise e end.

(** ** The operators the module applies to decoded JSON *)

Definition is_JStr (key : string) (j : json) : bool :=
  match j with JStr s => String.eqb key s | _ => false end.

(** [key in data]: key membership on a dict, the substring test on a
    string, element membership on a list, [TypeError] otherwise. *)
Definition py_in (key : string) (data : json) : result bool :=
  match data with
  | JDict m => OK (bool_decide (is_Some (m !! key)))
  | JStr s => OK (is_substring key s)
  | JList l => OK (existsb (is_JStr key) l)
  | JNull | JBool _ | JNumber _ => Raise TypeError
  end.

(** [data[key]] with a string key: only a dict can be indexed by one. *)
Definition py_getitem (data : json) (key : string) : result json :=
  match data with
  | JDict m => match m !! key with
               | Some v => OK v
               | None => Raise (KeyError key)
               end
  | _ => Raise TypeError
  end.

(** ** A backtracking matcher for the fragment of [re] the module uses *)

Inductive regex : Type :=
| Caret
| Dollar
| Lit (s : string)
| Alt (r1 r2 : regex)
| Plus (cls : ascii -> bool)
| Seq (r1 r2 : regex)
| Group (r : regex).

Definition cont : Type := string -> list string -> option (list string).

(** [cls+], greedy: take one more character while that leads to a match,
    otherwise stop here. *)
Fixpoint plus_loop (cls : ascii -> bool) (rest : string) (caps : list string)
    (k : cont) : option (list string) :=
  match rest with
  | String c rest' =>
      if cls c then
        match plus_loop cls rest' caps k with
        | Some g => Some g
        | None => k rest' caps
        end
      else None
  | EmptyString => None
  end.

(** [rest] is what is left of [subject]; [caps] are the groups closed so
    far.  Without [re.MULTILINE], [^] matches at the start of the subject
    and [$] at its end or just before a newline that ends it. *)
Fixpoint rmatch (subject : string) (r : regex) (rest : string)
    (caps : list string) (k : cont) : option (list string) :=
  match r with
  | Caret =>
      if Nat.eqb (String.length rest) (String.length subject)
      then k rest caps else None
  | Dollar =>
      if String.eqb rest "" || String.eqb rest newline
      then k rest caps else None
  | Lit s =>
      if String.prefix s rest
      then k (drop_chars (String.length s) rest) caps else None
  | Alt r1 r2 =>
      match rmatch subject r1 rest caps k with
      | Some g => Some g
      | None => rmatch subject r2 rest caps k
      end
  | Plus cls => plus_loop cls rest caps k
  | Seq r1 r2 =>
      rmatch subject r1 rest caps
        (fun rest' caps' => rmatch subject r2 rest' caps' k)
  | Group r1 =>
      rmatch subject r1 rest caps
        (fun rest' caps' =>
           k rest' (caps' ++
             [substring 0 (String.length rest - String.length rest')%nat rest])%list)
  end.

(** [re.match(pattern, subject)] followed by [.groups()]. *)
Definition re_match (pattern : regex) (subject : string) : option (list string) :=
  rmatch subject pattern subject [] (fun _ caps => Some caps).

(** ** [datetime]

    A [datetime] is kept as the module [datetime] computes with it: the
    proleptic Gregorian ordinal of its date (0001-01-01 is day 1), the
    microseconds since midnight, and the attached [tzinfo], if any. *)

Definition MAXORDINAL : Z := 3652059.
Definition day_us : Z := 86400 * 1000000.

Record tzinfo : Type := {
  tzname : string;
  utcoffset : Z -> Z -> Z   (* microseconds east of UTC at a local date and time *)
}.

Record datetime : Type := {
  ordinal : Z;
  tod : Z;
  dt_tzinfo : option tzinfo
}.

(** [datetime.timezone.utc] and [dateutil.tz.tzutc()]. *)
Definition timezone_utc : tzinfo := {| tzname := "UTC"; utcoffset := fun _ _ => 0 |}.
Definition tzutc : tzinfo := {| tzname := "UTC"; utcoffset := fun _ _ => 0 |}.

Definition aware (d : datetime) : Prop := is_Some (dt_tzinfo d).

(** [d.replace(tzinfo=z)]. *)
Definition replace_tzinfo (d : datetime) (z : option tzinfo) : datetime :=
  {| ordinal := ordinal d; tod := tod d; dt_tzinfo := z |}.

(** The date [days] days before that of [d], same time of day and zone. *)
Definition days_before (d : datetime) (days : Z) : datetime :=
  {| ordinal := ordinal d - days; tod := tod d; dt_tzinfo := dt_tzinfo d |}.

(** [d - timedelta(days=days)]: [OverflowError] when the date leaves
    [0001-01-01 .. 9999-12-31]. *)
Definition sub_days (d : datetime) (days : Z) : result datetime :=
  let o := ordinal d - days in
  if (0 <? o) && (o <=? MAXORDINAL) then OK (days_before d days)
  else Raise OverflowError.

Definition naive_us (d : datetime) : Z := ordinal d * day_us + tod d.

(** Microseconds on the UTC time line, for an aware [d] in zone [z]. *)
Definition utc_us (d : datetime) (z : tzinfo) : Z :=
  naive_us d - utcoffset z (ordinal d) (tod d).

(** [a < b]: two naive values compare by their fields, two aware values
    by their instants, and mixing them is a [TypeError].  (CPython compares
    the fields when both carry the same [tzinfo] object; the module only
    compares against a value in [timezone.utc], where the two agree.) *)
Definition dt_lt (a b : datetime) : result bool :=
  match dt_tzinfo a, dt_tzinfo b with
  | None, None => OK (naive_us a <? naive_us b)
  | Some za, Some zb => OK (utc_us a za <? utc_us b zb)
  | _, _ => Raise TypeError
  end.

(** Calendar arithmetic of the [datetime] module. *)
Definition is_leap (year : Z) : bool :=
  (year mod 4 =? 0) && (negb (year mod 100 =? 0) || (year mod 400 =? 0)).

Definition DAYS_IN_MONTH (month : Z) : Z :=
  nth (Z.to_nat month) [0; 31; 28; 31; 30; 31; 30; 31; 31; 30; 31; 30; 31] 0.

Definition DAYS_BEFORE_MONTH (month : Z) : Z :=
  nth (Z.to_nat month) [0; 0; 31; 59; 90; 120; 151; 181; 212; 243; 273; 304; 334] 0.

Definition days_before_year (year : Z) : Z :=
  let y := year - 1 in y * 365 + y / 4 - y / 100 + y / 400.

Definition days_before_month (year month : Z) : Z :=
  DAYS_BEFORE_MONTH month + (if (2 <? month) && is_leap year then 1 else 0).

Definition ymd2ord (year month day : Z) : Z :=
  days_before_year year + days_before_month year month + day.

Definition ord2ymd (n : Z) : Z * Z * Z :=
  let n := n - 1 in
  let n400 := n / 146097 in
  let n := n mod 146097 in
  let year := n400 * 400 + 1 in
  let n100 := n / 36524 in
  let n := n mod 36524 in
  let n4 := n / 1461 in
  let n := n mod 1461 in
  let n1 := n / 365 in
  let n := n mod 365 in
  let year := year + n100 * 100 + n4 * 4 + n1 in
  if (n1 =? 4) || (n100 =? 4) then (year - 1, 12, 31)
  else
    let leapyear := (n1 =? 3) && (negb (n4 =? 24) || (n100 =? 3)) in
    let month := Z.shiftr (n + 50) 5 in
    let preceding :=
      DAYS_BEFORE_MONTH month + (if (2 <? month) && leapyear then 1 else 0) in
    if n <? preceding then
      let month := month - 1 in
      let preceding :=
        preceding -
        (DAYS_IN_MONTH month + (if (month =? 2) && leapyear then 1 else 0)) in
      (year, month, n - preceding + 1)
    else (year, month, n - preceding + 1).

(** Decimal digits, zero-padded on the left to [width]. *)
Fixpoint zeros (n : nat) (s : string) : string :=
  match n with
  | O => s
  | S n' => String "0" (zeros n' s)
  end.

Definition zero_pad (width : nat) (s : string) : string :=
  zeros (width - String.length s) s.

Definition zfill (width : nat) (n : Z) : string := zero_pad width (pretty n).

(** [%Y]: four digits from year 1000 on.  How a year below 1000 is
    printed depends on the C library behind [strftime] (four digits with
    leading zeros as documented, no padding with glibc); [short_year]
    stands for that choice. *)
Definition year_text (short_year : Z -> string) (year : Z) : string :=
  if 1000 <=? year then pretty year else short_year year.

(** [d.strftime("%Y-%m-%d")]. *)
Definition strftime_ymd (short_year : Z -> string) (d : datetime) : string :=
  let '(y, m, dd) := ord2ymd (ordinal d) in
  year_text short_year y +:+ "-" +:+ zfill 2 m +:+ "-" +:+ zfill 2 dd.

(** [datetime(year, month, day, hour, minute, second, tzinfo=z)]. *)
Definition mk_datetime (year month day hour minute second : Z)
    (z : option tzinfo) : datetime :=
  {| ordinal := ymd2ord year month day;
     tod := ((hour * 60 + minute) * 60 + second) * 1000000;
     dt_tzinfo := z |}.

(** ** The world outside the module, and the effects of a call *)

Record response : Type := {
  status_code : Z;
  text : string;
  body : result json      (* what [resp.json()] returns or raises *)
}.

Record world : Type := {
  environ : gmap string string;
  (* the answer to a request, given how many requests the trace holds *)
  server : nat -> string -> gmap string string -> result response;
  (* the wall clock in UTC: day ordinal and microseconds since midnight *)
  clock_day : Z;
  clock_us : Z
}.

Inductive loglevel : Type := INFO | ERROR.

Inductive event : Type :=
| EvGet (url : string) (params : gmap string string)
| EvSleep (seconds : Z)
| EvLog (level : loglevel) (message : string) (args : list json).

Definition is_get (e : event) : bool :=
  match e with EvGet _ _ => true | _ => false end.

Definition n_gets (tr : list event) : nat := length (List.filter is_get tr).

Definition M (A : Type) : Type := world -> list event -> result A * list event.

#[global] Instance result_ret : MRet result := @OK.
#[global] Instance result_bind : MBind result := fun A B k r => rbind r k.

#[global] Instance M_ret : MRet M := fun A a _ tr => (OK a, tr).
#[global] Instance M_bind : MBind M := fun A B k m w tr =>
  match m w tr with
  | (OK a, tr') => k a w tr'
  | (Raise e, tr') => (Raise e, tr')
  end.

Definition lift {A} (r : result A) : M A := fun _ tr => (r, tr).
Definition raise {A} (e : exn) : M A := lift (Raise e).

(** [environ[name]]. *)
Definition environ_get (name : string) : M string := fun w tr =>
  (match environ w !! name with
   | Some v => OK v
   | None => Raise (KeyError name)
   end, tr).

(** [requests.get(url=url, params=params)]. *)
Definition requests_get (url : string) (params : gmap string string) : M response :=
  fun w tr => (server w (n_gets tr) url params, tr ++ [EvGet url params])%list.

Definition sleep (seconds : Z) : M unit :=
  fun _ tr => (OK tt, tr ++ [EvSleep seconds])%list.

Definition logging (level : loglevel) (message : string) (args : list json) : M unit :=
  fun _ tr => (OK tt, tr ++ [EvLog level message args])%list.

(** [datetime.now(timezone.utc)]. *)
Definition datetime_now_utc : M datetime := fun w tr =>
  (OK {| ordinal := clock_day w; tod := clock_us w;
         dt_tzinfo := Some timezone_utc |}, tr).

(** ** [_do_fetch] *)

Definition URL : string := "https://www.alphavantage.co/query".
Definition API_KEY : string := "ALPHAVANTAGE_API_KEY".
Definition codes_ok : Z := 200.

Definition _do_fetch (params : gmap string string) : M json :=
  key ← environ_get API_KEY;
  let params := <["apikey" := key]> params in
  resp ← requests_get URL params;
  data ← lift (body resp);
  noted ← lift (py_in "Note" data);
  '(resp, data) ←
    (if noted : bool then
       _ ← sleep 60;
       resp ← requests_get URL params;
       data ← lift (body resp);
       mret (resp, data)
     else mret (resp, data));
  if negb (status_code resp =? codes_ok) then
    raise (AlphavantageApiError (InvalidStatus (status_code resp) (text resp)))
  else
    has_error ← lift (py_in "Error Message" data);
    if has_error : bool then
      message ← lift (py_getitem data "Error Message");
      raise (AlphavantageApiError (InvalidMessage message))
    else mret data.

(** ** The search for a day with price data

    [while time.strftime("%Y-%m-%d") not in price_data:
         time -= timedelta(days=1)] *)

Equations? seek_day (short_year : Z -> string) (price_data : json)
    (time : datetime) : result datetime
    by wf (Z.to_nat (ordinal time)) lt :=
  seek_day short_year price_data time
    with py_in (strftime_ymd short_year time) price_data => {
    | Raise e => Raise e;
    | OK true => OK time;
    | OK false with Logic.inspect (sub_days time 1) => {
        | exist _ (Raise e) _ => Raise e;
        | exist _ (OK time') Hsub => seek_day short_year price_data time' } }.
Proof.
  unfold sub_days in Hsub.
  destruct (0 <? ordinal time - 1) eqn:Hpos; simpl in Hsub; [|discriminate].
  destruct (ordinal time - 1 <=? MAXORDINAL); [|discriminate].
  injection Hsub as <-. simpl. apply Z.ltb_lt in Hpos. lia.
Qed.

(** ** The price source *)

Record SourcePrice (decimal : Type) : Type := {
  price : decimal;
  time : datetime;
  quote_currency : string
}.
Arguments price {decimal} _.
Arguments time {decimal} _.
Arguments quote_currency {decimal} _.

Section Source.

(** What the libraries the module calls do is left open:
    - [uni_alnum c]: whether [re] counts the non-ASCII character [c] as
      alphanumeric; [uni_lower c]: what [str.lower] makes of it;
    - [short_year y]: how [strftime] prints the year [y] below 1000;
    - [Decimal x]: the [decimal.Decimal] constructor;
    - [parse x]: [dateutil.parser.parse];
    - [gettz x]: [dateutil.tz.gettz], which answers [None] for a zone
      name it cannot resolve. *)
Variable uni_alnum : ascii -> bool.
Variable uni_lower : ascii -> string.
Variable short_year : Z -> string.
Variable decimal : Type.
Variable Decimal : json -> result decimal.
Variable parse : json -> result datetime.
Variable gettz : json -> result (option tzinfo).

(** [\w] *)
Definition is_word (c : ascii) : bool :=
  if code c <? 128 then
    is_ascii_digit c || is_ascii_upper c || is_ascii_lower c || (code c =? 95)
  else uni_alnum c.

(** [[^:]] *)
Definition not_colon (c : ascii) : bool := negb (Ascii.eqb c ":").

(** [^(?P<kind>price|fx):(?P<symbol>[^:]+):(?P<base>\w+)$] *)
Definition ticker_re : regex :=
  Seq Caret
    (Seq (Group (Alt (Lit "price") (Lit "fx")))
       (Seq (Lit ":")
          (Seq (Group (Plus not_colon))
             (Seq (Lit ":")
                (Seq (Group (Plus is_word)) Dollar))))).

Definition invalid_ticker : string :=
  "Invalid ticker. Use " +:+ dquote +:+ "price:SYMBOL:BASE" +:+ dquote +:+
  " or " +:+ dquote +:+ "fx:CCY:BASE" +:+ dquote +:+ " format.".

Definition _parse_ticker (ticker : string) : result (list string) :=
  match re_match ticker_re ticker with
  | None => Raise (ValueError invalid_ticker)
  | Some groups => OK groups
  end.

(** [kind, symbol, base = ...] *)
Definition unpack3 (groups : list string) : result (string * string * string) :=
  match groups with
  | [kind; symbol; base] => OK (kind, symbol, base)
  | _ => Raise (ValueError "wrong number of values to unpack")
  end.

Definition lower_char (c : ascii) : string :=
  if is_ascii_upper c then
    String (ascii_of_nat (nat_of_ascii c + 32)) EmptyString
  else if code c <? 128 then String c EmptyString
  else uni_lower c.

Fixpoint lower (s : string) : string :=
  match s with
  | EmptyString => EmptyString
  | String c s' => lower_char c +:+ lower s'
  end.

(** [x.lower()]: only a string has the method. *)
Definition py_lower (x : json) : result string :=
  match x with
  | JStr s => OK (lower s)
  | _ => Raise AttributeError
  end.

Definition get_latest_price (ticker : string) : M (SourcePrice decimal) :=
  groups ← lift (_parse_ticker ticker);
  '(kind, symbol, base) ← lift (unpack3 groups);
  if String.eqb kind "price" then
    let params : gmap string string :=
      {[ "function" := "GLOBAL_QUOTE"; "symbol" := symbol ]} in
    data ← _do_fetch params;
    price_data ← lift (py_getitem data "Global Quote");
    price ← lift (py_getitem price_data "05. price" ≫= Decimal);
    date ← lift (py_getitem price_data "07. latest trading day" ≫= parse);
    let date := replace_tzinfo date (Some tzutc) in
    mret {| price := price; time := date; quote_currency := base |}
  else
    let params : gmap string string :=
      {[ "function" := "CURRENCY_EXCHANGE_RATE";
         "from_currency" := symbol; "to_currency" := base ]} in
    data ← _do_fetch params;
    price_data ← lift (py_getitem data "Realtime Currency Exchange Rate");
    price ← lift (py_getitem price_data "5. Exchange Rate" ≫= Decimal);
    date ← lift (py_getitem price_data "6. Last Refreshed" ≫= parse);
    zone ← lift (py_getitem price_data "7. Time Zone" ≫= gettz);
    let date := replace_tzinfo date zone in
    mret {| price := price; time := date; quote_currency := base |}.

(** ["Information" in data and
     "premium endpoint" in data["Information"].lower()] *)
Definition premium_endpoint (data : json) : result bool :=
  has_information ← py_in "Information" data;
  if has_information : bool then
    information ← py_getitem data "Information";
    lowered ← py_lower information;
    OK (is_substring "premium endpoint" lowered)
  else OK false.

Definition get_historical_price (ticker : string) (time : datetime)
    : M (option (SourcePrice decimal)) :=
  groups ← lift (_parse_ticker ticker);
  '(kind, symbol, base) ← lift (unpack3 groups);
  now ← datetime_now_utc;
  limit ← lift (sub_days now 130);
  older ← lift (dt_lt time limit);
  let param_output_size := if older : bool then "full" else "compact" in
  if String.eqb kind "price" then
    let params : gmap string string :=
      {[ "function" := "TIME_SERIES_DAILY"; "symbol" := symbol;
         "outputSize" := param_output_size ]} in
    data ← _do_fetch params;
    premium ← lift (premium_endpoint data);
    if premium : bool then
      _ ← logging INFO "Premium endpoint API key required." [];
      mret None
    else
      has_series ← lift (py_in "Time Series (Daily)" data);
      if has_series : bool then
        price_data ← lift (py_getitem data "Time Series (Daily)");
        time ← lift (seek_day short_year price_data time);
        day_data ← lift (py_getitem price_data (strftime_ymd short_year time));
        price ← lift (py_getitem day_data "4. close" ≫= Decimal);
        mret (Some {| price := price; time := time; quote_currency := base |})
      else
        _ ← logging ERROR "Price data not found when expected: %s" [data];
        mret None
  else
    _ ← logging INFO "Currency exchange not implemented yet." [];
    mret None.

End Source.

(** ** Notions used in the statements *)

(** [data] is a JSON object with a field [key] holding [v]. *)
Definition has_field (data : json) (key : string) (v : json) : Prop :=
  exists m, data = JDict m /\ m !! key = Some v.

(** The request [_do_fetch] sends for [params]. *)
Definition with_key (key : string) (params : gmap string string) : gmap string string :=
  <["apikey" := key]> params.

(** With the credential configured, [resp] (decoded as [data]) is the
    response [_do_fetch] ends up with: the first one when its body has no
    ["Note"], the answer to the repeated request otherwise. *)
Definition settles_on (w : world) (params : gmap string string)
    (tr : list event) (resp : response) (data : json) : Prop :=
  exists key first first_data,
    environ w !! API_KEY = Some key /\
    server w (n_gets tr) URL (with_key key params) = OK first /\
    body first = OK first_data /\
    ((py_in "Note" first_data = OK false /\ resp = first /\ data = first_data) \/
     (py_in "Note" first_data = OK true /\
      server w (S (n_gets tr)) URL (with_key key params) = OK resp /\
      body resp = OK data)).

(** What [_do_fetch] makes of the response it ends up with. *)
Definition verdict (resp : response) (data : json) : result json :=
  if negb (status_code resp =? codes_ok) then
    Raise (AlphavantageApiError (InvalidStatus (status_code resp) (text resp)))
  else
    has_error ← py_in "Error Message" data;
    if has_error : bool then
      message ← py_getitem data "Error Message";
      Raise (AlphavantageApiError (InvalidMessage message))
    else OK data.


(** The ticker grammar in words: three fields separated by colons; the
    kind is one of two tags, the symbol a non-empty run of characters
    other than a colon, the base a non-empty run of word characters. *)

Fixpoint all_chars (p : ascii -> bool) (s : string) : bool :=
  match s with
  | EmptyString => true
  | String c s' => p c && all_chars p s'
  end.

Fixpoint take_while (p : ascii -> bool) (s : string) : string :=
  match s with
  | EmptyString => EmptyString
  | String c s' => if p c then String c (take_while p s') else EmptyString
  end.

Fixpoint drop_while (p : ascii -> bool) (s : string) : string :=
  match s with
  | EmptyString => EmptyString
  | String c s' => if p c then drop_while p s' else s
  end.

(** A string that does not go on with a character of the class. *)
Definition stops (p : ascii -> bool) (r : string) : Prop :=
  match r with
  | EmptyString => True
  | String c _ => p c = false
  end.

Definition ticker_string (kind symbol base : string) : string :=
  kind +:+ ":" +:+ symbol +:+ ":" +:+ base.

Record ticker_fields (uni_alnum : ascii -> bool) (kind symbol base : string) : Prop := {
  kind_tag : kind = "price" \/ kind = "fx";
  symbol_nonempty : symbol <> "";
  symbol_chars : all_chars not_colon symbol = true;
  base_nonempty : base <> "";
  base_chars : all_chars (is_word uni_alnum) base = true
}.

Definition in_grammar (uni_alnum : ascii -> bool) (ticker : string) : Prop :=
  exists kind symbol base,
    ticker_fields uni_alnum kind symbol base /\
    ticker = ticker_string kind symbol base.

(** The pattern after the kind: [:(?P<symbol>[^:]+):(?P<base>\w+)$]. *)
Definition fields_re (uni_alnum : ascii -> bool) : regex :=
  Seq (Lit ":")
    (Seq (Group (Plus not_colon))
       (Seq (Lit ":")
          (Seq (Group (Plus (is_word uni_alnum))) Dollar))).

(** The same pattern read letter by letter: a colon, the longest run
    without a colon, a colon, the longest run of word characters, and
    then the end of the string or the newline that ends it. *)
Definition read_fields (uni_alnum : ascii -> bool) (rest : string)
    : option (string * string) :=
  match rest with
  | String c rest1 =>
      if Ascii.eqb c ":" then
        match take_while not_colon rest1, drop_while not_colon rest1 with
        | String _ _ as symbol, String _ rest2 =>
            match take_while (is_word uni_alnum) rest2 with
            | String _ _ as base =>
                let tail := drop_while (is_word uni_alnum) rest2 in
                if String.eqb tail "" || String.eqb tail newline
                then Some (symbol, base) else None
            | EmptyString => None
            end
        | _, _ => None
        end
      else None
  | EmptyString => None
  end.

(** The clock shows a date from which 130 days can be subtracted. *)
Definition clock_ok (w : world) : Prop := 130 < clock_day w <= MAXORDINAL.

(** The instant of [time], in zone [z], lies more than 130 days before the
    reading of the clock. *)
Definition more_than_130_days_ago (w : world) (time : datetime) (z : tzinfo) : bool :=
  utc_us time z <? clock_day w * day_us + clock_us w - 130 * day_us.

Definition output_size (w : world) (time : datetime) (z : tzinfo) : string :=
  if more_than_130_days_ago w time z then "full" else "compact".

(** The query of a historical lookup, before the key is added. *)
Definition historical_params (symbol size : string) : gmap string string :=
  {[ "function" := "TIME_SERIES_DAILY"; "symbol" := symbol;
     "outputSize" := size ]}.

(** The series has an entry for a day from 0001-01-01 up to the day of
    [time], [back] days before it. *)
Definition has_day_back (short_year : Z -> string)
    (series : gmap string json) (time : datetime) (back : Z) : Prop :=
  0 <= back < ordinal time /\
  is_Some (series !! strftime_ymd short_year (days_before time back)).

(** What [get_historical_price] makes of a body that has the series. *)
Definition series_price {decimal : Type} (short_year : Z -> string)
    (Decimal : json -> result decimal)
    (data : json) (time : datetime) (base : string)
    : result (option (SourcePrice decimal)) :=
  price_data ← py_getitem data "Time Series (Daily)";
  time ← seek_day short_year price_data time;
  day_data ← py_getitem price_data (strftime_ymd short_year time);
  price ← py_getitem day_data "4. close" ≫= Decimal;
  OK (Some {| price := price; time := time; quote_currency := base |}).

(** The query for the latest exchange rate, before the key is added. *)
Definition fx_params (symbol base : string) : gmap string string :=
  {[ "function" := "CURRENCY_EXCHANGE_RATE";
     "from_currency" := symbol; "to_currency" := base ]}.

(** ** Sample data, after the tests of the module

    A stand-in for the libraries, enough to run the examples: no
    non-ASCII character counts as a letter or changes case, a year below
    1000 is printed without padding, a decimal is
    kept as its text, [parse] knows the two timestamps of the tests, and
    [gettz] resolves ["UTC"] and no other name. *)

Definition sample_alnum : ascii -> bool := fun _ => false.
Definition sample_lower : ascii -> string := fun c => String c EmptyString.

(** Years below 1000 without padding, as glibc prints them. *)
Definition sample_year : Z -> string := pretty.

Definition sample_Decimal (x : json) : result string :=
  match x with
  | JStr s | JNumber s => OK s
  | _ => Raise TypeError
  end.

Definition sample_parse (x : json) : result datetime :=
  match x with
  | JStr s =>
      if String.eqb s "2021-01-21" then OK (mk_datetime 2021 1 21 0 0 0 None)
      else if String.eqb s "2021-02-21 20:32:25"
      then OK (mk_datetime 2021 2 21 20 32 25 None)
      else Raise (LibraryError "ParserError")
  | _ => Raise TypeError
  end.

Definition sample_gettz (x : json) : result (option tzinfo) :=
  match x with
  | JStr s => if String.eqb s "UTC" then OK (Some tzutc) else OK None
  | _ => Raise TypeError
  end.

Definition answer (status : Z) (text : string) (data : json) : response :=
  {| status_code := status; text := text; body := OK data |}.

(** A world whose server gives the n-th request the n-th answer, with the
    clock at 2025-04-09 00:00 UTC. *)
Definition sample_world (key : option string) (answers : nat -> response) : world :=
  {| environ := match key with
                | Some k => {[ API_KEY := k ]}
                | None => ∅
                end;
     server := fun n _ _ => OK (answers n);
     clock_day := ymd2ord 2025 4 9;
     clock_us := 0 |}.

Definition day_entry (open close : string) : json :=
  JDict {[ "1. open" := JStr open; "4. close" := JStr close ]}.

Definition sample_series : gmap string json :=
  {[ "2025-04-08" := day_entry "232.56" "221.03";
     "2025-04-07" := day_entry "219.24" "225.78";
     "2025-04-04" := day_entry "238.0" "227.48";
     "2025-04-03" := day_entry "242.71" "243.49" ]}.

Definition response_tsda : json :=
  JDict {[ "Meta Data" := JDict {[ "2. Symbol" := JStr "IBM" ]};
           "Time Series (Daily)" := JDict sample_series ]}.

Definition rate_limited : json :=
  JDict {[ "Note" := JStr "Thank you for using Alpha Vantage!" ]}.

Definition error_body : json :=
  JDict {[ "Error Message" := JStr "Something wrong" ]}.

Definition premium_body : json :=
  JDict {[ "Information" :=
             JStr "This is a premium endpoint. Please subscribe." ]}.

Definition odd_body : json := JDict {[ "Information" := JNumber "5" ]}.

Definition fx_body (zone : string) : json :=
  JDict {[ "Realtime Currency Exchange Rate" :=
             JDict {[ "5. Exchange Rate" := JStr "108.94000000";
                      "6. Last Refreshed" := JStr "2021-02-21 20:32:25";
                      "7. Time Zone" := JStr zone ]} ]}.

(** Sunday 2025-04-06, 10:00 UTC: a day the sample series lacks. *)
Definition sunday : datetime := mk_datetime 2025 4 6 10 0 0 (Some tzutc).

(** A server that answers 503 with a rate-limit note, and then 200 with
    the note again. *)
Definition busy_twice (n : nat) : response :=
  match n with
  | O => answer 503 "Service Unavailable" rate_limited
  | S _ => answer 200 "" rate_limited
  end.

Definition always (r : response) : nat -> response := fun _ => r.

(** ** Further notions: the latest price, step by step *)

(** The query for the latest quote of an instrument, before the key is
    added. *)
Definition quote_params (symbol : string) : gmap string string :=
  {[ "function" := "GLOBAL_QUOTE"; "symbol" := symbol ]}.

(** The query [get_latest_price] builds for a parsed ticker. *)
Definition latest_params (kind symbol base : string) : gmap string string :=
  if String.eqb kind "price" then quote_params symbol
  else fx_params symbol base.

(** What [get_latest_price] makes of the body of a quote. *)
Definition quote_price {decimal : Type} (Decimal : json -> result decimal)
    (parse : json -> result datetime) (data : json) (base : string)
    : result (SourcePrice decimal) :=
  price_data ← py_getitem data "Global Quote";
  price ← py_getitem price_data "05. price" ≫= Decimal;
  date ← py_getitem price_data "07. latest trading day" ≫= parse;
  OK {| price := price; time := replace_tzinfo date (Some tzutc);
        quote_currency := base |}.

(** What [get_latest_price] makes of the body of an exchange rate. *)
Definition fx_price {decimal : Type} (Decimal : json -> result decimal)
    (parse : json -> result datetime) (gettz : json -> result (option tzinfo))
    (data : json) (base : string) : result (SourcePrice decimal) :=
  price_data ← py_getitem data "Realtime Currency Exchange Rate";
  price ← py_getitem price_data "5. Exchange Rate" ≫= Decimal;
  date ← py_getitem price_data "6. Last Refreshed" ≫= parse;
  zone ← py_getitem price_data "7. Time Zone" ≫= gettz;
  OK {| price := price; time := replace_tzinfo date zone;
        quote_currency := base |}.

(** The reading of the clock, as [datetime.now(timezone.utc)] gives it. *)
Definition now_utc (w : world) : datetime :=
  {| ordinal := clock_day w; tod := clock_us w;
     dt_tzinfo := Some timezone_utc |}.

(** [time < datetime.now(timezone.utc) - timedelta(days=130)]. *)
Definition older_than_limit (w : world) (time : datetime) : result bool :=
  limit ← sub_days (now_utc w) 130;
  dt_lt time limit.

(** The events of a list that are not requests. *)
Definition is_log (e : event) : bool :=
  match e with EvLog _ _ _ => true | _ => false end.

(** The seconds a trace spends asleep. *)
Fixpoint slept (evs : list event) : Z :=
  match evs with
  | [] => 0
  | EvSleep seconds :: evs' => seconds + slept evs'
  | _ :: evs' => slept evs'
  end.

Definition n_logs (evs : list event) : nat := length (List.filter is_log evs).

(** ** Further sample data *)

(** The quote of [test_valid_response_price]. *)
Definition quote_body : json :=
  JDict {[ "Global Quote" :=
             JDict {[ "05. price" := JStr "144.7400";
                      "07. latest trading day" := JStr "2021-01-21" ]} ]}.

(** An error page: status 500 and a body that is not JSON. *)
Definition error_page : response :=
  {| status_code := 500; text := "Internal Server Error";
     body := Raise (LibraryError "JSONDecodeError") |}.

(** A series whose only day has no close. *)
Definition bare_series : json :=
  JDict {[ "Time Series (Daily)" :=
             JDict {[ "2025-04-04" := JDict {[ "1. open" := JStr "238.0" ]} ]} ]}.

(** Friday 2025-04-04, 10:00 UTC, and the Sunday after it without a zone. *)
Definition friday : datetime := mk_datetime 2025 4 4 10 0 0 (Some tzutc).
Definition naive_sunday : datetime := mk_datetime 2025 4 6 10 0 0 None.
(** ** Properties of [_do_fetch] *)

Ltac unfold_M :=
  unfold mbind, mret, M_bind, M_ret, result_bind, result_ret, rbind,
    lift, raise, environ_get, requests_get, sleep, logging,
    datetime_now_utc in *.

Lemma n_gets_app (tr evs : list event) :
  n_gets (tr ++ evs) = (n_gets tr + n_gets evs)%nat.
Proof. unfold n_gets. rewrite List.filter_app, length_app. reflexivity. Qed.

Lemma n_gets_after_sleep (tr : list event) url params seconds :
  n_gets ((tr ++ [EvGet url params]) ++ [EvSleep seconds]) = S (n_gets tr).
Proof. rewrite !n_gets_app. cbn. lia. Qed.

(** [_do_fetch], step by step. *)
Lemma do_fetch_run (w : world) params tr :
  _do_fetch params w tr =
    match environ w !! API_KEY with
    | None => (Raise (KeyError API_KEY), tr)
    | Some key =>
        let request := EvGet URL (with_key key params) in
        match server w (n_gets tr) URL (with_key key params) with
        | Raise e => (Raise e, tr ++ [request])
        | OK first =>
            match body first with
            | Raise e => (Raise e, tr ++ [request])
            | OK first_data =>
                match py_in "Note" first_data with
                | Raise e => (Raise e, tr ++ [request])
                | OK false => (verdict first first_data, tr ++ [request])
                | OK true =>
                    let retried := tr ++ [request; EvSleep 60; request] in
                    match server w (S (n_gets tr)) URL (with_key key params) with
                    | Raise e => (Raise e, retried)
                    | OK second =>
                        match body second with
                        | Raise e => (Raise e, retried)
                        | OK second_data => (verdict second second_data, retried)
                        end
                    end
                end
            end
        end
    end%list.
Proof.
  unfold _do_fetch, verdict, with_key. unfold_M.
  destruct (environ w !! API_KEY) as [key|]; [cbn|reflexivity].
  destruct (server w (n_gets tr) URL _) as [first|]; [|reflexivity].
  destruct (body first) as [first_data|]; [|reflexivity].
  destruct (py_in "Note" first_data) as [[]|]; [| |reflexivity].
  - rewrite n_gets_after_sleep, <- !app_assoc. cbn.
    destruct (server w (S (n_gets tr)) URL _) as [second|]; [|reflexivity].
    destruct (body second) as [second_data|]; [|reflexivity].
    destruct (negb (status_code second =? codes_ok)); [reflexivity|].
    destruct (py_in "Error Message" second_data) as [[]|]; try reflexivity.
    destruct (py_getitem second_data "Error Message"); reflexivity.
  - destruct (negb (status_code first =? codes_ok)); [reflexivity|].
    destruct (py_in "Error Message" first_data) as [[]|]; try reflexivity.
    destruct (py_getitem first_data "Error Message"); reflexivity.
Qed.

(** No marker in the first body: one request, and its response decides. *)
Lemma do_fetch_once (w : world) params tr key first first_data :
  environ w !! API_KEY = Some key ->
  server w (n_gets tr) URL (with_key key params) = OK first ->
  body first = OK first_data ->
  py_in "Note" first_data = OK false ->
  _do_fetch params w tr =
    (verdict first first_data, tr ++ [EvGet URL (with_key key params)])%list.
Proof.
  intros Hkey Hfirst Hbody Hnote.
  rewrite do_fetch_run, Hkey. cbn. rewrite Hfirst, Hbody, Hnote. reflexivity.
Qed.

(** A marker in the first body: the trace of the retry, whatever the
    second request brings. *)
Lemma do_fetch_retry_trace (w : world) params tr key first first_data :
  environ w !! API_KEY = Some key ->
  server w (n_gets tr) URL (with_key key params) = OK first ->
  body first = OK first_data ->
  py_in "Note" first_data = OK true ->
  snd (_do_fetch params w tr) =
    (tr ++ [EvGet URL (with_key key params); EvSleep 60;
            EvGet URL (with_key key params)])%list.
Proof.
  intros Hkey Hfirst Hbody Hnote.
  rewrite do_fetch_run, Hkey. cbn. rewrite Hfirst, Hbody, Hnote.
  destruct (server w (S (n_gets tr)) URL _) as [second|]; [|reflexivity].
  destruct (body second); reflexivity.
Qed.

(** A marker in the first body: the response to the repeated request
    decides. *)
Lemma do_fetch_retry (w : world) params tr key first first_data second second_data :
  environ w !! API_KEY = Some key ->
  server w (n_gets tr) URL (with_key key params) = OK first ->
  body first = OK first_data ->
  py_in "Note" first_data = OK true ->
  server w (S (n_gets tr)) URL (with_key key params) = OK second ->
  body second = OK second_data ->
  _do_fetch params w tr =
    (verdict second second_data,
     tr ++ [EvGet URL (with_key key params); EvSleep 60;
            EvGet URL (with_key key params)])%list.
Proof.
  intros Hkey Hfirst Hbody Hnote Hsecond Hbody2.
  rewrite do_fetch_run, Hkey. cbn.
  rewrite Hfirst, Hbody, Hnote, Hsecond, Hbody2. reflexivity.
Qed.

Lemma do_fetch_settles (w : world) params tr resp data :
  settles_on w params tr resp data ->
  fst (_do_fetch params w tr) = verdict resp data.
Proof.
  intros (key & first & first_data & Hkey & Hfirst & Hbody & Hcase).
  destruct Hcase as [(Hnote & -> & ->) | (Hnote & Hsecond & Hbody2)].
  - erewrite do_fetch_once by eassumption. reflexivity.
  - erewrite do_fetch_retry by eassumption. reflexivity.
Qed.

(** Whatever the world does, a fetch adds at most two requests. *)
Lemma do_fetch_gets_bound (w : world) params tr :
  exists evs, snd (_do_fetch params w tr) = (tr ++ evs)%list /\
              (n_gets evs <= 2)%nat.
Proof.
  rewrite do_fetch_run.
  destruct (environ w !! API_KEY) as [key|].
  2: { exists []. cbn. rewrite app_nil_r. split; [reflexivity | lia]. }
  cbn.
  destruct (server w (n_gets tr) URL _) as [first|];
    [|eexists; split; [reflexivity | cbn; lia]].
  destruct (body first) as [first_data|];
    [|eexists; split; [reflexivity | cbn; lia]].
  destruct (py_in "Note" first_data) as [[]|];
    [| eexists; split; [reflexivity | cbn; lia]
     | eexists; split; [reflexivity | cbn; lia]].
  destruct (server w (S (n_gets tr)) URL _) as [second|];
    [|eexists; split; [reflexivity | cbn; lia]].
  destruct (body second);
    eexists; (split; [reflexivity | cbn; lia]).
Qed.

(** With the credential configured, a fetch starts with its request, and
    anything it does after that is one sleep and the same request again. *)
Lemma do_fetch_events (w : world) params tr key :
  environ w !! API_KEY = Some key ->
  exists evs,
    snd (_do_fetch params w tr) =
      (tr ++ EvGet URL (with_key key params) :: evs)%list /\
    (evs = [] \/ evs = [EvSleep 60; EvGet URL (with_key key params)]).
Proof.
  intros Hkey. rewrite do_fetch_run, Hkey. cbn.
  destruct (server w (n_gets tr) URL _) as [first|]; [|eauto].
  destruct (body first) as [first_data|]; [|eauto].
  destruct (py_in "Note" first_data) as [[]|]; [|eauto..].
  destruct (server w (S (n_gets tr)) URL _) as [second|]; [|eauto].
  destruct (body second); eauto.
Qed.

(** ** Properties of the matcher and of [_parse_ticker] *)

Lemma append_nil_l (s : string) : "" +:+ s = s.
Proof. reflexivity. Qed.

Lemma append_cons (c : ascii) (a b : string) :
  String c a +:+ b = String c (a +:+ b).
Proof. reflexivity. Qed.

(** [String.append] does not unfold under [simpl]; push it inwards. *)
Ltac sapp := rewrite ?append_cons, ?append_nil_l in *; simpl in *.

Lemma append_nil_r (s : string) : s +:+ "" = s.
Proof. induction s as [|c s IH]; sapp; [reflexivity | now rewrite IH]. Qed.

Lemma append_assoc (a b c : string) : (a +:+ b) +:+ c = a +:+ (b +:+ c).
Proof. induction a as [|x a IH]; sapp; [reflexivity | now rewrite IH]. Qed.

Lemma length_append (a b : string) :
  String.length (a +:+ b) = (String.length a + String.length b)%nat.
Proof. induction a as [|x a IH]; sapp; [reflexivity | now rewrite IH]. Qed.

Lemma prefix_append (a r : string) : String.prefix a (a +:+ r) = true.
Proof.
  induction a as [|x a IH]; sapp; [now destruct r|].
  destruct (ascii_dec x x); [assumption | congruence].
Qed.

Lemma drop_chars_append (a r : string) : drop_chars (String.length a) (a +:+ r) = r.
Proof. induction a as [|x a IH]; sapp; [now destruct r | assumption]. Qed.

Lemma prefix_split (a t : string) :
  String.prefix a t = true -> t = a +:+ drop_chars (String.length a) t.
Proof.
  revert t. induction a as [|x a IH]; intros t H; [reflexivity|].
  destruct t as [|y t]; simpl in H; [discriminate|].
  destruct (ascii_dec x y) as [->|]; [|discriminate].
  sapp. f_equal. now apply IH.
Qed.

Lemma substring_prefix (a r : string) : substring 0 (String.length a) (a +:+ r) = a.
Proof.
  induction a as [|x a IH]; sapp; [now destruct r | now rewrite IH].
Qed.

(** What a group captures when the match went from [a +:+ r] to [r]. *)
Lemma capture_prefix (a r : string) :
  substring 0 (String.length (a +:+ r) - String.length r) (a +:+ r) = a.
Proof.
  rewrite length_append.
  replace (String.length a + String.length r - String.length r)%nat
    with (String.length a) by lia.
  apply substring_prefix.
Qed.

Lemma capture_split (a r t : string) :
  a +:+ r = t ->
  substring 0 (String.length t - String.length r) t = a.
Proof. intros <-. apply capture_prefix. Qed.

Lemma take_drop_while (p : ascii -> bool) (s : string) :
  take_while p s +:+ drop_while p s = s.
Proof.
  induction s as [|c s IH]; simpl; [reflexivity|].
  destruct (p c); sapp; [now rewrite IH | reflexivity].
Qed.

Lemma all_chars_take_while (p : ascii -> bool) (s : string) :
  all_chars p (take_while p s) = true.
Proof.
  induction s as [|c s IH]; simpl; [reflexivity|].
  destruct (p c) eqn:Hc; simpl; [now rewrite Hc | reflexivity].
Qed.

Lemma stops_drop_while (p : ascii -> bool) (s : string) : stops p (drop_while p s).
Proof.
  induction s as [|c s IH]; simpl; [exact I|].
  destruct (p c) eqn:Hc; simpl; assumption.
Qed.

Lemma take_while_append (p : ascii -> bool) (a r : string) :
  all_chars p a = true -> stops p r -> take_while p (a +:+ r) = a.
Proof.
  intros Ha Hr. induction a as [|c a IH]; sapp.
  - destruct r as [|c r]; simpl in *; [reflexivity | now rewrite Hr].
  - apply andb_true_iff in Ha as [Hc Ha]. rewrite Hc. f_equal. now apply IH.
Qed.

Lemma drop_while_append (p : ascii -> bool) (a r : string) :
  all_chars p a = true -> stops p r -> drop_while p (a +:+ r) = r.
Proof.
  intros Ha Hr. induction a as [|c a IH]; sapp.
  - destruct r as [|c r]; simpl in *; [reflexivity | now rewrite Hr].
  - apply andb_true_iff in Ha as [Hc Ha]. rewrite Hc. now apply IH.
Qed.

(** When what follows cannot start with a character of the class, [cls+]
    has one way to match: the longest run. *)
Lemma plus_loop_longest (cls : ascii -> bool) (k : cont) :
  (forall c r caps, cls c = true -> k (String c r) caps = None) ->
  forall rest caps,
    plus_loop cls rest caps k =
      match take_while cls rest with
      | EmptyString => None
      | String _ _ => k (drop_while cls rest) caps
      end.
Proof.
  intros Hk rest caps. induction rest as [|c rest IH]; simpl; [reflexivity|].
  destruct (cls c) eqn:Hc; [|reflexivity].
  rewrite IH. destruct rest as [|c' rest]; simpl; [reflexivity|].
  destruct (cls c') eqn:Hc'; [|reflexivity].
  destruct (k (drop_while cls rest) caps); [reflexivity|].
  now apply Hk.
Qed.

Lemma is_word_newline (uni_alnum : ascii -> bool) :
  is_word uni_alnum "010" = false.
Proof. reflexivity. Qed.

Lemma prefix_colon (rest : string) :
  String.prefix ":" rest =
    match rest with
    | String c _ => Ascii.eqb c ":"
    | EmptyString => false
    end.
Proof.
  destruct rest as [|c rest]; [reflexivity|].
  change (String.prefix ":" (String c rest))
    with (if ascii_dec ":" c then String.prefix "" rest else false).
  destruct (ascii_dec ":" c) as [<-|Hne].
  - now destruct rest.
  - symmetry. apply Ascii.eqb_neq. congruence.
Qed.

Lemma not_colon_false (c : ascii) : not_colon c = false -> c = ":"%char.
Proof.
  unfold not_colon. intros H. apply negb_false_iff in H.
  now apply Ascii.eqb_eq in H.
Qed.

(** The matcher on the fields agrees with the letter-by-letter reading. *)
Lemma fields_run (uni_alnum : ascii -> bool) (subject rest : string)
    (caps : list string) :
  rmatch subject (fields_re uni_alnum) rest caps (fun _ caps' => Some caps') =
    match read_fields uni_alnum rest with
    | Some (symbol, base) => Some (caps ++ [symbol; base])%list
    | None => None
    end.
Proof.
  unfold fields_re, read_fields. cbn [rmatch].
  rewrite prefix_colon. destruct rest as [|c rest1]; [reflexivity|].
  destruct (Ascii.eqb c ":"); [|reflexivity].
  change (drop_chars (String.length ":") (String c rest1)) with rest1.
  rewrite plus_loop_longest.
  2: { intros c' r caps' Hc'. rewrite prefix_colon.
       unfold not_colon in Hc'. now apply negb_true_iff in Hc' as ->. }
  pose proof (take_drop_while not_colon rest1) as Hsplit.
  pose proof (stops_drop_while not_colon rest1) as Hstop.
  destruct (take_while not_colon rest1) as [|s0 symbol] eqn:Hsym; [reflexivity|].
  rewrite prefix_colon.
  destruct (drop_while not_colon rest1) as [|c2 rest2] eqn:Hdrop; [reflexivity|].
  simpl in Hstop. apply not_colon_false in Hstop as ->.
  rewrite Ascii.eqb_refl.
  change (drop_chars (String.length ":") (String ":" rest2)) with rest2.
  rewrite plus_loop_longest.
  2: { intros c' r caps' Hc'.
       destruct (String.eqb_spec (String c' r) "") as [|_]; [discriminate|].
       destruct (String.eqb_spec (String c' r) newline) as [Heq|_]; [|reflexivity].
       injection Heq as -> ->. now rewrite is_word_newline in Hc'. }
  pose proof (take_drop_while (is_word uni_alnum) rest2) as Hsplit2.
  destruct (take_while (is_word uni_alnum) rest2) as [|b0 base] eqn:Hbase;
    [reflexivity|].
  destruct (_ || _); [|reflexivity].
  rewrite (capture_split _ _ _ Hsplit), (capture_split _ _ _ Hsplit2).
  rewrite <- app_assoc. reflexivity.
Qed.

Lemma read_fields_complete (uni_alnum : ascii -> bool) (symbol base tail : string) :
  symbol <> "" -> all_chars not_colon symbol = true ->
  base <> "" -> all_chars (is_word uni_alnum) base = true ->
  tail = "" \/ tail = newline ->
  read_fields uni_alnum (":" +:+ symbol +:+ ":" +:+ base +:+ tail) =
    Some (symbol, base).
Proof.
  intros Hs Hsc Hb Hbc Htail. unfold read_fields. sapp.
  rewrite (take_while_append not_colon symbol), (drop_while_append not_colon symbol);
    try assumption; try reflexivity.
  destruct symbol as [|s0 symbol]; [congruence|].
  assert (Hstop : stops (is_word uni_alnum) tail).
  { destruct Htail as [-> | ->]; [exact I | reflexivity]. }
  rewrite (take_while_append _ base), (drop_while_append _ base) by assumption.
  destruct base as [|b0 base]; [congruence|].
  destruct Htail as [-> | ->]; reflexivity.
Qed.

Lemma read_fields_sound (uni_alnum : ascii -> bool) (rest symbol base : string) :
  read_fields uni_alnum rest = Some (symbol, base) ->
  exists tail,
    rest = ":" +:+ symbol +:+ ":" +:+ base +:+ tail /\
    symbol <> "" /\ all_chars not_colon symbol = true /\
    base <> "" /\ all_chars (is_word uni_alnum) base = true /\
    (tail = "" \/ tail = newline).
Proof.
  unfold read_fields. destruct rest as [|c rest1]; [discriminate|].
  destruct (Ascii.eqb_spec c ":") as [->|]; [|discriminate].
  pose proof (take_drop_while not_colon rest1) as Hsplit.
  pose proof (all_chars_take_while not_colon rest1) as Hall.
  pose proof (stops_drop_while not_colon rest1) as Hstop.
  destruct (take_while not_colon rest1) as [|s0 sym]; [discriminate|].
  destruct (drop_while not_colon rest1) as [|c2 rest2]; [discriminate|].
  simpl in Hstop. apply not_colon_false in Hstop as ->.
  pose proof (take_drop_while (is_word uni_alnum) rest2) as Hsplit2.
  pose proof (all_chars_take_while (is_word uni_alnum) rest2) as Hall2.
  destruct (take_while (is_word uni_alnum) rest2) as [|b0 bs]; [discriminate|].
  destruct (String.eqb_spec (drop_while (is_word uni_alnum) rest2) "") as [Ht|_].
  - simpl. intros [= <- <-]. exists "". rewrite Ht in Hsplit2.
    repeat split; try assumption; try discriminate; [|now left].
    rewrite <- Hsplit, <- Hsplit2. reflexivity.
  - destruct (String.eqb_spec (drop_while (is_word uni_alnum) rest2) newline)
      as [Ht|_]; [|discriminate].
    simpl. intros [= <- <-]. exists newline. rewrite Ht in Hsplit2.
    repeat split; try assumption; try discriminate; [|now right].
    rewrite <- Hsplit, <- Hsplit2. reflexivity.
Qed.

(** [re.match] on the ticker pattern: the kind, then the fields. *)
Lemma ticker_re_run (uni_alnum : ascii -> bool) (ticker : string) :
  re_match (ticker_re uni_alnum) ticker =
    match (if String.prefix "price" ticker
           then read_fields uni_alnum (drop_chars 5 ticker) else None) with
    | Some (symbol, base) => Some ["price"; symbol; base]
    | None =>
        match (if String.prefix "fx" ticker
               then read_fields uni_alnum (drop_chars 2 ticker) else None) with
        | Some (symbol, base) => Some ["fx"; symbol; base]
        | None => None
        end
    end.
Proof.
  unfold re_match.
  change (ticker_re uni_alnum)
    with (Seq Caret (Seq (Group (Alt (Lit "price") (Lit "fx"))) (fields_re uni_alnum))).
  cbn [rmatch]. rewrite Nat.eqb_refl.
  change (String.length "price") with 5%nat.
  change (String.length "fx") with 2%nat.
  destruct (String.prefix "price" ticker) eqn:Hprice.
  - apply prefix_split in Hprice. rewrite fields_run.
    rewrite (capture_split "price" _ ticker) by (symmetry; exact Hprice).
    destruct (read_fields uni_alnum (drop_chars 5 ticker)) as [[symbol base]|];
      [reflexivity|].
    assert (String.prefix "fx" ticker = false) as ->; [|reflexivity].
    rewrite Hprice. reflexivity.
  - destruct (String.prefix "fx" ticker) eqn:Hfx; [|reflexivity].
    apply prefix_split in Hfx. rewrite fields_run.
    rewrite (capture_split "fx" _ ticker) by (symmetry; exact Hfx).
    destruct (read_fields uni_alnum (drop_chars 2 ticker)) as [[symbol base]|];
      reflexivity.
Qed.

(** Every well-formed ticker, with or without a final newline, is parsed
    into its fields. *)
Lemma parse_ticker_complete (uni_alnum : ascii -> bool)
    (kind symbol base tail : string) :
  ticker_fields uni_alnum kind symbol base ->
  tail = "" \/ tail = newline ->
  _parse_ticker uni_alnum (ticker_string kind symbol base +:+ tail) =
    OK [kind; symbol; base].
Proof.
  intros [Hkind Hs Hsc Hb Hbc] Htail.
  unfold _parse_ticker. rewrite ticker_re_run.
  unfold ticker_string. rewrite !append_assoc.
  destruct Hkind as [-> | ->].
  - rewrite prefix_append.
    change 5%nat with (String.length "price"). rewrite drop_chars_append.
    rewrite read_fields_complete by assumption. reflexivity.
  - replace (String.prefix "price" _) with false by reflexivity.
    rewrite prefix_append.
    change 2%nat with (String.length "fx"). rewrite drop_chars_append.
    rewrite read_fields_complete by assumption. reflexivity.
Qed.

(** Whatever is parsed is a well-formed ticker, possibly followed by one
    newline. *)
Lemma parse_ticker_sound (uni_alnum : ascii -> bool) (ticker : string)
    (groups : list string) :
  _parse_ticker uni_alnum ticker = OK groups ->
  exists kind symbol base tail,
    groups = [kind; symbol; base] /\
    ticker_fields uni_alnum kind symbol base /\
    ticker = ticker_string kind symbol base +:+ tail /\
    (tail = "" \/ tail = newline).
Proof.
  unfold _parse_ticker. rewrite ticker_re_run.
  destruct (String.prefix "price" ticker) eqn:Hprice.
  - apply prefix_split in Hprice.
    destruct (read_fields uni_alnum (drop_chars 5 ticker))
      as [[symbol base]|] eqn:Hread.
    + intros [= <-].
      apply read_fields_sound in Hread
        as (tail & Hrest & Hs & Hsc & Hb & Hbc & Htail).
      exists "price", symbol, base, tail. repeat split; auto.
      rewrite Hprice. change (String.length "price") with 5%nat.
      rewrite Hrest. unfold ticker_string. now rewrite !append_assoc.
    + assert (String.prefix "fx" ticker = false) as ->;
        [rewrite Hprice; reflexivity | discriminate].
  - destruct (String.prefix "fx" ticker) eqn:Hfx; [|discriminate].
    apply prefix_split in Hfx.
    destruct (read_fields uni_alnum (drop_chars 2 ticker))
      as [[symbol base]|] eqn:Hread; [|discriminate].
    intros [= <-].
    apply read_fields_sound in Hread
      as (tail & Hrest & Hs & Hsc & Hb & Hbc & Htail).
    exists "fx", symbol, base, tail. repeat split; auto.
    rewrite Hfx. change (String.length "fx") with 2%nat.
    rewrite Hrest. unfold ticker_string. now rewrite !append_assoc.
Qed.

(** ** Properties of the search for a day *)

Lemma seek_day_step (short_year : Z -> string)
    (price_data : json) (time : datetime) :
  seek_day short_year price_data time =
    match py_in (strftime_ymd short_year time) price_data with
    | Raise e => Raise e
    | OK true => OK time
    | OK false =>
        match sub_days time 1 with
        | Raise e => Raise e
        | OK time' => seek_day short_year price_data time'
        end
    end.
Proof.
  simp seek_day.
  destruct (py_in (strftime_ymd short_year time) price_data) as [[]|]; simpl; try reflexivity.
  destruct (sub_days time 1); reflexivity.
Qed.

Lemma days_before_0 (time : datetime) : days_before time 0 = time.
Proof. destruct time. unfold days_before. simpl. now rewrite Z.sub_0_r. Qed.

Lemma days_before_add (time : datetime) (a b : Z) :
  days_before (days_before time a) b = days_before time (a + b).
Proof. unfold days_before. simpl. f_equal. lia. Qed.

Lemma sub_days_ok (time : datetime) (days : Z) :
  0 < ordinal time - days <= MAXORDINAL ->
  sub_days time days = OK (days_before time days).
Proof.
  intros [Hlo Hhi]. unfold sub_days.
  apply Z.ltb_lt in Hlo as ->. apply Z.leb_le in Hhi as ->. reflexivity.
Qed.

Lemma sub_days_overflow (time : datetime) (days : Z) :
  ordinal time - days <= 0 ->
  sub_days time days = Raise OverflowError.
Proof.
  intros H. unfold sub_days.
  apply Z.ltb_ge in H as ->. reflexivity.
Qed.

(** Whether the series has an entry for the date [back] days before
    [time]. *)
Lemma present_dict (m : gmap string json) (key : string) :
  py_in key (JDict m) = OK (bool_decide (is_Some (m !! key))).
Proof. reflexivity. Qed.

(** The search stops at the first day, going back, that the series has. *)
Lemma seek_day_finds (short_year : Z -> string)
    (m : gmap string json) (back : nat) :
  forall time : datetime,
    ordinal time <= MAXORDINAL ->
    Z.of_nat back < ordinal time ->
    (forall j, 0 <= j < Z.of_nat back ->
               m !! strftime_ymd short_year (days_before time j) = None) ->
    is_Some (m !! strftime_ymd short_year (days_before time (Z.of_nat back))) ->
    seek_day short_year (JDict m) time = OK (days_before time (Z.of_nat back)).
Proof.
  induction back as [|back IH]; intros time Hmax Hback Habsent Hpresent.
  - simpl in *. rewrite days_before_0 in *.
    rewrite seek_day_step, present_dict.
    now rewrite bool_decide_eq_true_2.
  - rewrite seek_day_step, present_dict.
    rewrite bool_decide_eq_false_2.
    2: { specialize (Habsent 0 ltac:(lia)). rewrite days_before_0 in Habsent.
         rewrite Habsent. intros [? ?]. discriminate. }
    rewrite sub_days_ok by lia.
    rewrite IH.
    + rewrite days_before_add. f_equal. f_equal. lia.
    + simpl. lia.
    + simpl. lia.
    + intros j Hj. rewrite days_before_add. apply Habsent. lia.
    + rewrite days_before_add.
      replace (1 + Z.of_nat back) with (Z.of_nat (S back)) by lia. exact Hpresent.
Qed.

(** With no entry on or before the day of [time], the search steps back to
    0001-01-01 and the next subtraction overflows. *)
Lemma seek_day_overflows (short_year : Z -> string)
    (m : gmap string json) (n : nat) :
  forall time : datetime,
    1 <= ordinal time <= MAXORDINAL ->
    ordinal time <= Z.of_nat n ->
    (forall j, 0 <= j < ordinal time ->
               m !! strftime_ymd short_year (days_before time j) = None) ->
    seek_day short_year (JDict m) time = Raise OverflowError.
Proof.
  induction n as [|n IH]; intros time Hvalid Hn Habsent; [lia|].
  rewrite seek_day_step, present_dict.
  rewrite bool_decide_eq_false_2.
  2: { specialize (Habsent 0 ltac:(lia)). rewrite days_before_0 in Habsent.
       rewrite Habsent. intros [? ?]. discriminate. }
  destruct (Z.eq_dec (ordinal time) 1) as [Hone|Hmore].
  - rewrite sub_days_overflow by lia. reflexivity.
  - rewrite sub_days_ok by lia. apply IH.
    + simpl. lia.
    + simpl. lia.
    + simpl. intros j Hj. rewrite days_before_add. apply Habsent. lia.
Qed.

(** Among the first [n] days going back, either none is in the series or
    there is a first one that is. *)
Lemma first_present (short_year : Z -> string)
    (m : gmap string json) (time : datetime) (n : nat) :
  (forall j, 0 <= j < Z.of_nat n ->
             m !! strftime_ymd short_year (days_before time j) = None) \/
  (exists back : nat, (back < n)%nat /\
     is_Some (m !! strftime_ymd short_year (days_before time (Z.of_nat back))) /\
     forall j, 0 <= j < Z.of_nat back ->
               m !! strftime_ymd short_year (days_before time j) = None).
Proof.
  induction n as [|n [IH | IH]].
  - left. intros j Hj. lia.
  - destruct (m !! strftime_ymd short_year (days_before time (Z.of_nat n))) as [v|] eqn:Hn.
    + right. exists n. split; [lia|]. split; [rewrite Hn; eauto | exact IH].
    + left. intros j Hj.
      destruct (Z.eq_dec j (Z.of_nat n)) as [->|]; [exact Hn | apply IH; lia].
  - right. destruct IH as (back & Hlt & Hpresent & Habsent).
    exists back. split; [lia | split; assumption].
Qed.

(** ** The two entry points, step by step *)

Lemma limit_run (w : world) (time : datetime) (z : tzinfo) :
  clock_ok w -> dt_tzinfo time = Some z ->
  (limit ← sub_days {| ordinal := clock_day w; tod := clock_us w;
                       dt_tzinfo := Some timezone_utc |} 130;
   dt_lt time limit) = OK (more_than_130_days_ago w time z).
Proof.
  intros [Hlo Hhi] Hz. rewrite sub_days_ok by (simpl; lia).
  unfold mbind, result_bind, rbind, dt_lt, more_than_130_days_ago.
  rewrite Hz. simpl. f_equal. f_equal.
  unfold utc_us, naive_us, days_before. simpl. lia.
Qed.

Lemma historical_price_run (uni_alnum : ascii -> bool)
    (uni_lower : ascii -> string) (short_year : Z -> string)
    (decimal : Type) (Decimal : json -> result decimal)
    (w : world) (ticker kind symbol base : string) (time : datetime)
    (z : tzinfo) (tr : list event) :
  _parse_ticker uni_alnum ticker = OK [kind; symbol; base] ->
  dt_tzinfo time = Some z ->
  clock_ok w ->
  get_historical_price uni_alnum uni_lower short_year decimal Decimal ticker time w tr =
    if String.eqb kind "price" then
      match _do_fetch (historical_params symbol (output_size w time z)) w tr with
      | (Raise e, tr') => (Raise e, tr')
      | (OK data, tr') =>
          match premium_endpoint uni_lower data with
          | Raise e => (Raise e, tr')
          | OK true =>
              (OK None,
               (tr' ++ [EvLog INFO "Premium endpoint API key required." []])%list)
          | OK false =>
              match py_in "Time Series (Daily)" data with
              | Raise e => (Raise e, tr')
              | OK true => (series_price short_year Decimal data time base, tr')
              | OK false =>
                  (OK None,
                   (tr' ++ [EvLog ERROR "Price data not found when expected: %s"
                              [data]])%list)
              end
          end
      end
    else
      (OK None,
       (tr ++ [EvLog INFO "Currency exchange not implemented yet." []])%list).
Proof.
  intros Hparse Hz Hclock.
  pose proof (limit_run w time z Hclock Hz) as Hlimit.
  unfold get_historical_price, series_price. unfold_M. rewrite Hparse. simpl.
  destruct (sub_days _ 130) as [limit|]; [|discriminate].
  rewrite Hlimit.
  destruct (String.eqb kind "price"); [|reflexivity].
  change (if more_than_130_days_ago w time z then "full" else "compact")
    with (output_size w time z).
  fold (historical_params symbol (output_size w time z)).
  destruct (_do_fetch _ w tr) as [[data|e] tr']; [|reflexivity].
  destruct (premium_endpoint uni_lower data) as [[]|]; try reflexivity.
  destruct (py_in "Time Series (Daily)" data) as [[]|]; try reflexivity.
  destruct (py_getitem data "Time Series (Daily)") as [price_data|]; [|reflexivity].
  destruct (seek_day short_year price_data time) as [day|]; [|reflexivity].
  destruct (py_getitem price_data (strftime_ymd short_year day)) as [day_data|]; [|reflexivity].
  destruct (py_getitem day_data "4. close") as [close|]; [|reflexivity].
  destruct (Decimal close); reflexivity.
Qed.

Lemma has_field_getitem (data : json) (key : string) (v : json) :
  has_field data key v -> py_getitem data key = OK v.
Proof. intros (m & -> & Hm). simpl. now rewrite Hm. Qed.

Lemma has_field_in (data : json) (key : string) (v : json) :
  has_field data key v -> py_in key data = OK true.
Proof.
  intros (m & -> & Hm). simpl. rewrite bool_decide_eq_true_2; eauto.
Qed.

Lemma premium_endpoint_string (uni_lower : ascii -> string) (data : json)
    (info : string) :
  has_field data "Information" (JStr info) ->
  premium_endpoint uni_lower data =
    OK (is_substring "premium endpoint" (lower uni_lower info)).
Proof.
  intros Hinfo. unfold premium_endpoint.
  rewrite (has_field_in _ _ _ Hinfo). simpl.
  rewrite (has_field_getitem _ _ _ Hinfo). reflexivity.
Qed.

Lemma premium_endpoint_no_field (uni_lower : ascii -> string)
    (m : gmap string json) :
  m !! "Information" = None ->
  premium_endpoint uni_lower (JDict m) = OK false.
Proof.
  intros Hnone. unfold premium_endpoint. simpl. rewrite Hnone.
  rewrite bool_decide_eq_false_2; [reflexivity|].
  intros [? ?]. discriminate.
Qed.

(** * Main results *)

(** C10.  When the environment has no ALPHAVANTAGE_API_KEY, a fetch fails
    with the [KeyError] of the environment lookup and leaves the trace as
    it was: no request is sent (and nothing else happens). *)
Theorem do_fetch_requires_api_key (w : world) (params : gmap string string)
    (tr : list event) :
  environ w !! API_KEY = None ->
  _do_fetch params w tr = (Raise (KeyError API_KEY), tr).
Proof.
  intros Hkey. rewrite do_fetch_run, Hkey. reflexivity.
Qed.

(** C4.  When the first decoded body contains ["Note"], whatever the
    status of that response, the client sleeps 60 seconds and sends the
    same request once more, and that is all it sends; the answer to the
    second request then decides, and it is returned as it is when its
    status is 200 and it has no ["Error Message"], also when it contains
    ["Note"] again.  Whatever the world does, a fetch sends at most two
    requests. *)
Theorem do_fetch_rate_limit (w : world) (params : gmap string string)
    (tr : list event) (key : string) (first : response) (first_data : json) :
  environ w !! API_KEY = Some key ->
  server w (n_gets tr) URL (with_key key params) = OK first ->
  body first = OK first_data ->
  py_in "Note" first_data = OK true ->
  snd (_do_fetch params w tr) =
    (tr ++ [EvGet URL (with_key key params); EvSleep 60;
            EvGet URL (with_key key params)])%list /\
  (forall second second_data,
     server w (S (n_gets tr)) URL (with_key key params) = OK second ->
     body second = OK second_data ->
     status_code second = codes_ok ->
     py_in "Error Message" second_data = OK false ->
     fst (_do_fetch params w tr) = OK second_data) /\
  (forall w' params' tr',
     exists evs, snd (_do_fetch params' w' tr') = (tr' ++ evs)%list /\
                 (n_gets evs <= 2)%nat).
Proof.
  intros Hkey Hfirst Hbody Hnote. split; [|split].
  - eapply do_fetch_retry_trace; eassumption.
  - intros second second_data Hsecond Hbody2 Hstatus Herr.
    erewrite do_fetch_retry by eassumption. simpl.
    unfold verdict. rewrite Hstatus, Z.eqb_refl, Herr. reflexivity.
  - intros w' params' tr'. apply do_fetch_gets_bound.
Qed.

(** C1, as the code has it.  Let the response the fetch ends up with (the
    first one, or the answer to the repeated request after a ["Note"])
    decode to an object with an ["Error Message"] field.  If its status is
    200 the fetch raises the [AlphavantageApiError] that carries the
    message; with any other status it raises the [AlphavantageApiError]
    that carries the status code and the text of the response instead. *)
Theorem do_fetch_error_message (w : world) (params : gmap string string)
    (tr : list event) (resp : response) (data message : json) :
  settles_on w params tr resp data ->
  has_field data "Error Message" message ->
  fst (_do_fetch params w tr) =
    Raise (AlphavantageApiError
             (if status_code resp =? codes_ok then InvalidMessage message
              else InvalidStatus (status_code resp) (text resp))).
Proof.
  intros Hsettles (m & -> & Hmessage).
  rewrite (do_fetch_settles _ _ _ _ _ Hsettles). unfold verdict.
  destruct (status_code resp =? codes_ok); [|reflexivity].
  simpl. rewrite Hmessage.
  rewrite bool_decide_eq_true_2 by eauto. reflexivity.
Qed.

(** C5, as the code has it.  A string made of a kind [price] or [fx], a
    colon, a non-empty symbol without a colon, a colon and a non-empty base
    of word characters is parsed into exactly these three fields, and so
    is such a string followed by one newline.  Every other string raises
    the [ValueError] for an invalid ticker, which is not an
    [AlphavantageApiError], the class of the transport and the application
    errors. *)
Theorem parse_ticker_grammar (uni_alnum : ascii -> bool) (ticker : string) :
  (forall kind symbol base tail,
     ticker_fields uni_alnum kind symbol base ->
     tail = "" \/ tail = newline ->
     ticker = ticker_string kind symbol base +:+ tail ->
     _parse_ticker uni_alnum ticker = OK [kind; symbol; base]) /\
  ((forall kind symbol base tail,
      ticker_fields uni_alnum kind symbol base ->
      tail = "" \/ tail = newline ->
      ticker <> ticker_string kind symbol base +:+ tail) ->
   _parse_ticker uni_alnum ticker = Raise (ValueError invalid_ticker) /\
   isinstance_ValueError (ValueError invalid_ticker) = true /\
   isinstance_AlphavantageApiError (ValueError invalid_ticker) = false /\
   forall detail,
     isinstance_AlphavantageApiError (AlphavantageApiError detail) = true).
Proof.
  split.
  - intros kind symbol base tail Hfields Htail ->.
    now apply parse_ticker_complete.
  - intros Hnone. split; [|repeat split].
    destruct (_parse_ticker uni_alnum ticker) as [groups|e] eqn:Hparse.
    + exfalso.
      apply parse_ticker_sound in Hparse
        as (kind & symbol & base & tail & _ & Hfields & Heq & Htail).
      exact (Hnone kind symbol base tail Hfields Htail Heq).
    + unfold _parse_ticker in Hparse.
      destruct (re_match (ticker_re uni_alnum) ticker); [discriminate|].
      symmetry. exact Hparse.
Qed.

(** C6, as the code has it.  For a valid [time], the search through a
    series always ends.  If the series has an entry for some day from
    0001-01-01 up to the day of [time], the search returns [time] moved
    back to the latest such day.  If it has none, the search does not run
    forever: it steps back to 0001-01-01 and ends with the
    [OverflowError] of the next subtraction. *)
Theorem seek_day_ends (short_year : Z -> string)
    (series : gmap string json) (time : datetime) :
  1 <= ordinal time <= MAXORDINAL ->
  ((exists back, has_day_back short_year series time back) ->
   exists back,
     has_day_back short_year series time back /\
     (forall j, 0 <= j < back ->
                series !! strftime_ymd short_year (days_before time j) = None) /\
     seek_day short_year (JDict series) time = OK (days_before time back)) /\
  (~ (exists back, has_day_back short_year series time back) ->
   seek_day short_year (JDict series) time = Raise OverflowError).
Proof.
  intros Hvalid.
  destruct (first_present short_year series time (Z.to_nat (ordinal time)))
    as [Habsent | (back & Hlt & Hpresent & Habsent)].
  - split.
    + intros (back & Hrange & Hpresent). exfalso.
      rewrite Habsent in Hpresent by lia. destruct Hpresent; discriminate.
    + intros _. apply (seek_day_overflows short_year series (Z.to_nat (ordinal time))).
      * exact Hvalid.
      * lia.
      * intros j Hj. apply Habsent. lia.
  - split.
    + intros _. exists (Z.of_nat back). split; [split; [lia | exact Hpresent]|].
      split; [exact Habsent|].
      apply seek_day_finds; [lia | lia | exact Habsent | exact Hpresent].
    + intros Hnone. exfalso. apply Hnone.
      exists (Z.of_nat back). split; [lia | exact Hpresent].
Qed.

(** C7, as the code has it.  For a ticker of kind [fx] and an aware
    [time] (a datetime that carries a zone), the historical lookup returns
    [None]; all it does is log that exchange rates are not implemented, and
    it sends no request. *)
Theorem historical_fx_absent (uni_alnum : ascii -> bool)
    (uni_lower : ascii -> string) (short_year : Z -> string)
    (decimal : Type)
    (Decimal : json -> result decimal) (w : world)
    (ticker symbol base : string) (time : datetime) (tr : list event) :
  _parse_ticker uni_alnum ticker = OK ["fx"; symbol; base] ->
  aware time ->
  clock_ok w ->
  get_historical_price uni_alnum uni_lower short_year decimal Decimal ticker time w tr =
    (OK None,
     (tr ++ [EvLog INFO "Currency exchange not implemented yet." []])%list) /\
  n_gets (snd (get_historical_price uni_alnum uni_lower short_year decimal Decimal
                 ticker time w tr)) = n_gets tr.
Proof.
  intros Hparse [z Hz] Hclock.
  rewrite (historical_price_run _ _ _ _ _ _ _ _ _ _ _ z tr Hparse Hz Hclock).
  simpl. split; [reflexivity|].
  rewrite n_gets_app. cbn. lia.
Qed.

(** C9.  For a ticker of kind [price] and an aware [time], with the
    credential configured, the lookup starts with a request whose
    [outputSize] is ["full"] when the instant of [time] lies more than 130
    days before the reading of the clock and ["compact"] otherwise; any
    further request of the call is that same request. *)
Theorem historical_output_size (uni_alnum : ascii -> bool)
    (uni_lower : ascii -> string) (short_year : Z -> string)
    (decimal : Type)
    (Decimal : json -> result decimal) (w : world)
    (ticker symbol base key : string) (time : datetime) (z : tzinfo)
    (tr : list event) :
  _parse_ticker uni_alnum ticker = OK ["price"; symbol; base] ->
  dt_tzinfo time = Some z ->
  clock_ok w ->
  environ w !! API_KEY = Some key ->
  let size := if more_than_130_days_ago w time z then "full" else "compact" in
  let request := EvGet URL (with_key key (historical_params symbol size)) in
  with_key key (historical_params symbol size) !! "outputSize" = Some size /\
  exists evs,
    snd (get_historical_price uni_alnum uni_lower short_year decimal Decimal
           ticker time w tr) = (tr ++ request :: evs)%list /\
    forall e, In e evs -> is_get e = true -> e = request.
Proof.
  intros Hparse Hz Hclock Hkey size request. split; [reflexivity|].
  rewrite (historical_price_run _ _ _ _ _ _ _ _ _ _ _ z tr Hparse Hz Hclock).
  simpl. fold size.
  destruct (do_fetch_events w (historical_params symbol size) tr key Hkey)
    as (evs & Htrace & Hevs).
  fold request in Htrace, Hevs.
  assert (Hgets : forall e, In e evs -> is_get e = true -> e = request).
  { intros e Hin Hget. destruct Hevs as [-> | ->]; simpl in Hin.
    - contradiction.
    - destruct Hin as [<- | [<- | []]]; [discriminate | reflexivity]. }
  assert (Hlog : forall level text args e,
            In e (evs ++ [EvLog level text args]) -> is_get e = true ->
            e = request).
  { intros level text args e Hin Hget.
    apply in_app_or in Hin as [Hin | [<- | []]]; [auto | discriminate]. }
  unfold output_size. fold size.
  destruct (_do_fetch (historical_params symbol size) w tr) as [[data|e] tr'];
    simpl in Htrace; subst tr'.
  2: { exists evs. split; [reflexivity | exact Hgets]. }
  destruct (premium_endpoint uni_lower data) as [[]|].
  - eexists. simpl. rewrite <- app_assoc. simpl. split; [reflexivity | apply Hlog].
  - destruct (py_in "Time Series (Daily)" data) as [[]|].
    + exists evs. split; [reflexivity | exact Hgets].
    + eexists. simpl. rewrite <- app_assoc. simpl.
      split; [reflexivity | apply Hlog].
    + exists evs. split; [reflexivity | exact Hgets].
  - exists evs. split; [reflexivity | exact Hgets].
Qed.

(** C8, as the code has it.  Take a historical lookup of a [price] ticker
    whose fetch returned [data].
    - If [data] has an ["Information"] string that mentions
      "premium endpoint" in any letter case, the lookup returns [None]
      after an INFO record.
    - If [data] is an object without ["Time Series (Daily)"] whose
      ["Information"] field is absent, or is a string that does not
      mention a premium endpoint, the lookup returns [None] after an
      ERROR record that shows the body.
    The two records differ, and a found price is [Some] value. *)
Theorem historical_no_data_shapes (uni_alnum : ascii -> bool)
    (uni_lower : ascii -> string) (short_year : Z -> string)
    (decimal : Type)
    (Decimal : json -> result decimal) (w : world)
    (ticker symbol base : string) (time : datetime) (z : tzinfo)
    (tr tr' : list event) (data : json) :
  _parse_ticker uni_alnum ticker = OK ["price"; symbol; base] ->
  dt_tzinfo time = Some z ->
  clock_ok w ->
  _do_fetch (historical_params symbol (output_size w time z)) w tr =
    (OK data, tr') ->
  (forall info,
     has_field data "Information" (JStr info) ->
     is_substring "premium endpoint" (lower uni_lower info) = true ->
     get_historical_price uni_alnum uni_lower short_year decimal Decimal ticker time w tr =
       (OK None,
        (tr' ++ [EvLog INFO "Premium endpoint API key required." []])%list)) /\
  (forall m,
     data = JDict m ->
     m !! "Time Series (Daily)" = None ->
     m !! "Information" = None \/
     (exists info, m !! "Information" = Some (JStr info) /\
        is_substring "premium endpoint" (lower uni_lower info) = false) ->
     get_historical_price uni_alnum uni_lower short_year decimal Decimal ticker time w tr =
       (OK None,
        (tr' ++ [EvLog ERROR "Price data not found when expected: %s"
                   [data]])%list)).
Proof.
  intros Hparse Hz Hclock Hfetch.
  rewrite (historical_price_run _ _ _ _ _ _ _ _ _ _ _ z tr Hparse Hz Hclock).
  simpl. rewrite Hfetch. split.
  - intros info Hinfo Hpremium.
    rewrite (premium_endpoint_string _ _ _ Hinfo), Hpremium. reflexivity.
  - intros m -> Hseries Hinfo.
    assert (premium_endpoint uni_lower (JDict m) = OK false) as ->.
    { destruct Hinfo as [Hnone | (info & Hsome & Hplain)].
      - now apply premium_endpoint_no_field.
      - rewrite (premium_endpoint_string _ _ info); [now rewrite Hplain|].
        exists m. split; [reflexivity | exact Hsome]. }
    simpl. rewrite Hseries.
    rewrite bool_decide_eq_false_2; [reflexivity|].
    intros [? ?]. discriminate.
Qed.

(** C2, as the code has it.  Take a historical lookup of a [price] ticker
    whose fetch returned a body that is not a premium-tier notice and has
    a daily series.  If the series lacks the day of [time] and every day
    after the one [back] days earlier, but has that day, with a close the
    [Decimal] constructor accepts, the lookup returns that close, the base
    of the ticker as the quote currency, and as the timestamp [time] moved
    back by [back] days: the matched day, at the requested time of day and
    in the requested zone. *)
Theorem historical_price_fallback (uni_alnum : ascii -> bool)
    (uni_lower : ascii -> string) (short_year : Z -> string)
    (decimal : Type)
    (Decimal : json -> result decimal) (w : world)
    (ticker symbol base : string) (time : datetime) (z : tzinfo)
    (tr tr' : list event) (data : json) (series : gmap string json)
    (back : Z) (day_data close : json) (p : decimal) :
  _parse_ticker uni_alnum ticker = OK ["price"; symbol; base] ->
  dt_tzinfo time = Some z ->
  clock_ok w ->
  1 <= ordinal time <= MAXORDINAL ->
  _do_fetch (historical_params symbol (output_size w time z)) w tr =
    (OK data, tr') ->
  premium_endpoint uni_lower data = OK false ->
  has_field data "Time Series (Daily)" (JDict series) ->
  0 < back < ordinal time ->
  (forall j, 0 <= j < back ->
             series !! strftime_ymd short_year (days_before time j) = None) ->
  series !! strftime_ymd short_year (days_before time back) = Some day_data ->
  has_field day_data "4. close" close ->
  Decimal close = OK p ->
  get_historical_price uni_alnum uni_lower short_year decimal Decimal ticker time w tr =
    (OK (Some {| price := p; time := days_before time back;
                 quote_currency := base |}), tr').
Proof.
  intros Hparse Hz Hclock Hvalid Hfetch Hpremium Hseries Hback Habsent
    Hpresent Hclose Hdecimal.
  rewrite (historical_price_run _ _ _ _ _ _ _ _ _ _ _ z tr Hparse Hz Hclock).
  simpl. rewrite Hfetch, Hpremium, (has_field_in _ _ _ Hseries).
  unfold series_price. rewrite (has_field_getitem _ _ _ Hseries). simpl.
  assert (Hseek : seek_day short_year (JDict series) time = OK (days_before time back)).
  { replace back with (Z.of_nat (Z.to_nat back)) in * by lia.
    apply seek_day_finds; [lia | lia | exact Habsent |].
    rewrite Hpresent. eauto. }
  rewrite Hseek. simpl. rewrite Hpresent. simpl.
  rewrite (has_field_getitem _ _ _ Hclose). simpl. rewrite Hdecimal.
  reflexivity.
Qed.

(** C3, as the code has it.  For a ticker of kind [fx] whose fetch returned
    a well-formed exchange-rate payload, the ["7. Time Zone"] field is
    handed to [gettz] and whatever it answers replaces the [tzinfo] of the
    parsed timestamp: the resolved zone, or, when [gettz] answers [None]
    because it cannot resolve the name, no zone at all.  No error is raised
    for an unresolved name. *)
Theorem latest_fx_time_zone (uni_alnum : ascii -> bool) (decimal : Type)
    (Decimal : json -> result decimal) (parse : json -> result datetime)
    (gettz : json -> result (option tzinfo)) (w : world)
    (ticker symbol base : string) (tr tr' : list event)
    (data price_data rate refreshed zone : json) (p : decimal)
    (date : datetime) (z : option tzinfo) :
  _parse_ticker uni_alnum ticker = OK ["fx"; symbol; base] ->
  _do_fetch (fx_params symbol base) w tr = (OK data, tr') ->
  has_field data "Realtime Currency Exchange Rate" price_data ->
  has_field price_data "5. Exchange Rate" rate ->
  Decimal rate = OK p ->
  has_field price_data "6. Last Refreshed" refreshed ->
  parse refreshed = OK date ->
  has_field price_data "7. Time Zone" zone ->
  gettz zone = OK z ->
  get_latest_price uni_alnum decimal Decimal parse gettz ticker w tr =
    (OK {| price := p; time := replace_tzinfo date z;
           quote_currency := base |}, tr').
Proof.
  intros Hparse Hfetch Hdata Hrate Hdecimal Hrefreshed Hdate Hzone Hgettz.
  unfold get_latest_price. unfold_M. rewrite Hparse. simpl.
  fold (fx_params symbol base). rewrite Hfetch.
  rewrite (has_field_getitem _ _ _ Hdata).
  rewrite (has_field_getitem _ _ _ Hrate), Hdecimal.
  rewrite (has_field_getitem _ _ _ Hrefreshed), Hdate.
  rewrite (has_field_getitem _ _ _ Hzone), Hgettz.
  reflexivity.
Qed.

(** * The results on sample inputs *)

(** A fetch without the credential. *)
Lemma do_fetch_requires_api_key_witness :
  let w := sample_world None (always (answer 200 "" error_body)) in
  environ w !! API_KEY = None /\
  _do_fetch ∅ w [] = (Raise (KeyError API_KEY), []).
Proof.
  intros w. split; [reflexivity|].
  apply do_fetch_requires_api_key. reflexivity.
Defined.

(** A rate-limit note on a 503, then again on the 200 that follows. *)
Lemma do_fetch_rate_limit_witness :
  let w := sample_world (Some "foo") busy_twice in
  let request := EvGet URL (with_key "foo" ∅) in
  py_in "Note" rate_limited = OK true /\
  snd (_do_fetch ∅ w []) = [request; EvSleep 60; request] /\
  fst (_do_fetch ∅ w []) = OK rate_limited.
Proof.
  intros w request. split; [reflexivity|].
  destruct (do_fetch_rate_limit w ∅ [] "foo"
              (answer 503 "Service Unavailable" rate_limited) rate_limited
              eq_refl eq_refl eq_refl eq_refl) as (Htrace & Hreturn & _).
  split; [exact Htrace|].
  exact (Hreturn (answer 200 "" rate_limited) rate_limited
           eq_refl eq_refl eq_refl eq_refl).
Defined.

Lemma sample_settles (status : Z) (text : string) (data : json) :
  py_in "Note" data = OK false ->
  settles_on (sample_world (Some "foo") (always (answer status text data)))
    ∅ [] (answer status text data) data.
Proof.
  intros Hnote. exists "foo", (answer status text data), data.
  repeat split; try reflexivity. left. repeat split. exact Hnote.
Defined.

(** An error message on a 200, as in [test_error_response]. *)
Lemma do_fetch_error_message_witness :
  let w := sample_world (Some "foo") (always (answer 200 "" error_body)) in
  has_field error_body "Error Message" (JStr "Something wrong") /\
  fst (_do_fetch ∅ w []) =
    Raise (AlphavantageApiError (InvalidMessage (JStr "Something wrong"))).
Proof.
  intros w.
  assert (Hfield : has_field error_body "Error Message" (JStr "Something wrong")).
  { eexists. split; reflexivity. }
  split; [exact Hfield|].
  exact (do_fetch_error_message w ∅ [] (answer 200 "" error_body) error_body
           (JStr "Something wrong") (sample_settles 200 "" error_body eq_refl)
           Hfield).
Defined.

(** The same body on a 404: the error carries the status and the text, not
    the message. *)
Lemma error_message_on_status_404 :
  let w := sample_world (Some "foo") (always (answer 404 "Not Found" error_body)) in
  has_field error_body "Error Message" (JStr "Something wrong") /\
  fst (_do_fetch ∅ w []) =
    Raise (AlphavantageApiError (InvalidStatus 404 "Not Found")) /\
  fst (_do_fetch ∅ w []) <>
    Raise (AlphavantageApiError (InvalidMessage (JStr "Something wrong"))).
Proof.
  intros w. split; [eexists; split; reflexivity|].
  split; [reflexivity | discriminate].
Qed.

Lemma sample_fields :
  ticker_fields sample_alnum "price" "IBM" "USD".
Proof. split; (reflexivity || discriminate || now left). Defined.

(** [price:IBM:USD] is parsed, [INVALID] is refused. *)
Lemma parse_ticker_grammar_witness :
  _parse_ticker sample_alnum "price:IBM:USD" = OK ["price"; "IBM"; "USD"] /\
  _parse_ticker sample_alnum "INVALID" = Raise (ValueError invalid_ticker).
Proof.
  split.
  - apply (proj1 (parse_ticker_grammar sample_alnum "price:IBM:USD")
             "price" "IBM" "USD" "");
      [exact sample_fields | now left | reflexivity].
  - apply (proj2 (parse_ticker_grammar sample_alnum "INVALID")).
    intros kind symbol base tail Hfields Htail Heq.
    pose proof (parse_ticker_complete _ _ _ _ _ Hfields Htail) as Hparse.
    rewrite <- Heq in Hparse. discriminate Hparse.
Defined.

(** A ticker followed by a newline is not in the grammar, and is parsed
    all the same. *)
Lemma trailing_newline_accepted :
  ~ in_grammar sample_alnum ("price:IBM:USD" +:+ newline) /\
  _parse_ticker sample_alnum ("price:IBM:USD" +:+ newline) =
    OK ["price"; "IBM"; "USD"].
Proof.
  split; [|reflexivity].
  intros (kind & symbol & base & Hfields & Heq).
  pose proof (parse_ticker_complete _ _ _ _ "" Hfields (or_introl eq_refl))
    as Hparse.
  rewrite append_nil_r, <- Heq in Hparse.
  injection Hparse as <- <- <-. discriminate Heq.
Qed.

Lemma sunday_valid : 1 <= ordinal sunday <= MAXORDINAL.
Proof. split; discriminate. Defined.

(** From Sunday 2025-04-06 the search goes back two days, to Friday. *)
Lemma seek_day_ends_witness :
  has_day_back sample_year sample_series sunday 2 /\
  exists back,
    has_day_back sample_year sample_series sunday back /\
    (forall j, 0 <= j < back ->
               sample_series !! strftime_ymd sample_year (days_before sunday j) = None) /\
    seek_day sample_year (JDict sample_series) sunday = OK (days_before sunday back).
Proof.
  assert (Hday : has_day_back sample_year sample_series sunday 2).
  { split; [split; [discriminate | reflexivity]|]. vm_compute. eauto. }
  split; [exact Hday|].
  apply (proj1 (seek_day_ends sample_year sample_series sunday sunday_valid)).
  exists 2. exact Hday.
Defined.

(** With an empty series the search ends, with an error. *)
Lemma empty_series_search_overflows :
  seek_day sample_year (JDict ∅) sunday = Raise OverflowError.
Proof.
  apply (seek_day_overflows sample_year ∅ (Z.to_nat (ordinal sunday))).
  - exact sunday_valid.
  - apply Z.eq_le_incl. symmetry. apply Z2Nat.id. discriminate.
  - intros j _. apply lookup_empty.
Qed.

Lemma sample_clock_ok (key : option string) (answers : nat -> response) :
  clock_ok (sample_world key answers).
Proof. split; [reflexivity | discriminate]. Defined.

(** A historical exchange rate, as asked on a Sunday. *)
Lemma historical_fx_absent_witness :
  let w := sample_world (Some "foo") (always (answer 200 "" response_tsda)) in
  _parse_ticker sample_alnum "fx:USD:CHF" = OK ["fx"; "USD"; "CHF"] /\
  aware sunday /\
  get_historical_price sample_alnum sample_lower sample_year string sample_Decimal
    "fx:USD:CHF" sunday w [] =
    (OK None, [EvLog INFO "Currency exchange not implemented yet." []]).
Proof.
  intros w.
  assert (Haware : aware sunday) by (eexists; reflexivity).
  split; [reflexivity | split; [exact Haware|]].
  exact (proj1 (historical_fx_absent sample_alnum sample_lower sample_year string
                  sample_Decimal w "fx:USD:CHF" "USD" "CHF" sunday []
                  eq_refl Haware (sample_clock_ok _ _))).
Defined.

(** The same lookup with a datetime that has no zone: the comparison with
    the clock raises before the kind is looked at. *)
Lemma fx_lookup_with_naive_time_raises :
  let w := sample_world (Some "foo") (always (answer 200 "" response_tsda)) in
  _parse_ticker sample_alnum "fx:USD:CHF" = OK ["fx"; "USD"; "CHF"] /\
  dt_tzinfo naive_sunday = None /\
  get_historical_price sample_alnum sample_lower sample_year string
    sample_Decimal "fx:USD:CHF" naive_sunday w [] = (Raise TypeError, []).
Proof. intros w. repeat split. Qed.

(** New Year's Day 2024 is more than 130 days before 2025-04-09, the
    Sunday before it is not. *)
Lemma historical_output_size_witness :
  let w := sample_world (Some "foo") (always (answer 200 "" response_tsda)) in
  let new_year := mk_datetime 2024 1 1 0 0 0 (Some tzutc) in
  (exists evs,
     snd (get_historical_price sample_alnum sample_lower sample_year string sample_Decimal
            "price:IBM:USD" new_year w []) =
       EvGet URL (with_key "foo" (historical_params "IBM" "full")) :: evs) /\
  (exists evs,
     snd (get_historical_price sample_alnum sample_lower sample_year string sample_Decimal
            "price:IBM:USD" sunday w []) =
       EvGet URL (with_key "foo" (historical_params "IBM" "compact")) :: evs).
Proof.
  intros w new_year. split.
  - destruct (historical_output_size sample_alnum sample_lower sample_year string
                sample_Decimal w "price:IBM:USD" "IBM" "USD" "foo" new_year
                tzutc [] eq_refl eq_refl (sample_clock_ok _ _) eq_refl)
      as (_ & evs & Htrace & _).
    exists evs. exact Htrace.
  - destruct (historical_output_size sample_alnum sample_lower sample_year string
                sample_Decimal w "price:IBM:USD" "IBM" "USD" "foo" sunday
                tzutc [] eq_refl eq_refl (sample_clock_ok _ _) eq_refl)
      as (_ & evs & Htrace & _).
    exists evs. exact Htrace.
Defined.

(** A premium-tier notice, and a body that has neither the series nor a
    notice. *)
Lemma historical_no_data_shapes_witness :
  let premium := sample_world (Some "foo") (always (answer 200 "" premium_body)) in
  let empty := sample_world (Some "foo") (always (answer 200 "" (JDict ∅))) in
  let request := EvGet URL (with_key "foo" (historical_params "IBM" "compact")) in
  get_historical_price sample_alnum sample_lower sample_year string sample_Decimal
    "price:IBM:USD" sunday premium [] =
    (OK None,
     [request; EvLog INFO "Premium endpoint API key required." []]) /\
  get_historical_price sample_alnum sample_lower sample_year string sample_Decimal
    "price:IBM:USD" sunday empty [] =
    (OK None,
     [request;
      EvLog ERROR "Price data not found when expected: %s" [JDict ∅]]).
Proof.
  intros premium empty request. split.
  - apply (proj1 (historical_no_data_shapes sample_alnum sample_lower sample_year string
                    sample_Decimal premium "price:IBM:USD" "IBM" "USD" sunday
                    tzutc [] [request] premium_body
                    eq_refl eq_refl (sample_clock_ok _ _) eq_refl)
             "This is a premium endpoint. Please subscribe.").
    + eexists. split; reflexivity.
    + reflexivity.
  - apply (proj2 (historical_no_data_shapes sample_alnum sample_lower sample_year string
                    sample_Decimal empty "price:IBM:USD" "IBM" "USD" sunday
                    tzutc [] [request] (JDict ∅)
                    eq_refl eq_refl (sample_clock_ok _ _) eq_refl)
             ∅ eq_refl).
    + reflexivity.
    + left. reflexivity.
Defined.

(** A body without the series whose ["Information"] is a number: the
    lookup raises. *)
Lemma information_not_a_string_raises :
  let w := sample_world (Some "foo") (always (answer 200 "" odd_body)) in
  py_in "Time Series (Daily)" odd_body = OK false /\
  _do_fetch (historical_params "IBM" "compact") w [] =
    (OK odd_body,
     [EvGet URL (with_key "foo" (historical_params "IBM" "compact"))]) /\
  fst (get_historical_price sample_alnum sample_lower sample_year string sample_Decimal
         "price:IBM:USD" sunday w []) = Raise AttributeError.
Proof. intros w. repeat split. Qed.

(** Friday's close for a lookup on Sunday, dated Friday. *)
Lemma historical_price_fallback_witness :
  let w := sample_world (Some "foo") (always (answer 200 "" response_tsda)) in
  sample_series !! strftime_ymd sample_year sunday = None /\
  get_historical_price sample_alnum sample_lower sample_year string sample_Decimal
    "price:IBM:USD" sunday w [] =
    (OK (Some {| price := "227.48"; time := days_before sunday 2;
                 quote_currency := "USD" |}),
     [EvGet URL (with_key "foo" (historical_params "IBM" "compact"))]).
Proof.
  intros w. split; [reflexivity|].
  apply (historical_price_fallback sample_alnum sample_lower sample_year string
           sample_Decimal w "price:IBM:USD" "IBM" "USD" sunday tzutc [] _
           response_tsda sample_series 2 (day_entry "238.0" "227.48")
           (JStr "227.48") "227.48"); try reflexivity.
  - apply sample_clock_ok.
  - exact sunday_valid.
  - eexists. split; reflexivity.
  - split; reflexivity.
  - intros j Hj.
    assert (j = 0 \/ j = 1) as [-> | ->] by lia; reflexivity.
  - eexists. split; reflexivity.
Defined.

(** The timestamp of that result is Friday's, not the requested one. *)
Lemma fallback_timestamp_is_matched_day :
  let w := sample_world (Some "foo") (always (answer 200 "" response_tsda)) in
  let friday := mk_datetime 2025 4 4 10 0 0 (Some tzutc) in
  sample_series !! strftime_ymd sample_year sunday = None /\
  fst (get_historical_price sample_alnum sample_lower sample_year string sample_Decimal
         "price:IBM:USD" sunday w []) =
    OK (Some {| price := "227.48"; time := friday; quote_currency := "USD" |}) /\
  friday <> sunday.
Proof.
  intros w friday. split; [reflexivity | split; [reflexivity|]].
  intros Heq. apply (f_equal ordinal) in Heq. discriminate Heq.
Qed.

(** The exchange rate of the tests, in zone ["UTC"]. *)
Lemma latest_fx_time_zone_witness :
  let w := sample_world (Some "foo") (always (answer 200 "" (fx_body "UTC"))) in
  get_latest_price sample_alnum string sample_Decimal sample_parse sample_gettz
    "fx:USD:CHF" w [] =
    (OK {| price := "108.94000000";
           time := mk_datetime 2021 2 21 20 32 25 (Some tzutc);
           quote_currency := "CHF" |},
     [EvGet URL (with_key "foo" (fx_params "USD" "CHF"))]).
Proof.
  intros w.
  apply (latest_fx_time_zone sample_alnum string sample_Decimal sample_parse
           sample_gettz w "fx:USD:CHF" "USD" "CHF" [] _ (fx_body "UTC")
           (JDict {[ "5. Exchange Rate" := JStr "108.94000000";
                     "6. Last Refreshed" := JStr "2021-02-21 20:32:25";
                     "7. Time Zone" := JStr "UTC" ]})
           (JStr "108.94000000") (JStr "2021-02-21 20:32:25") (JStr "UTC")
           "108.94000000" (mk_datetime 2021 2 21 20 32 25 None) (Some tzutc));
    try reflexivity; eexists; split; reflexivity.
Defined.

(** The same payload with a zone name [gettz] cannot resolve: a timestamp
    without a zone comes back, and no error. *)
Lemma unresolved_zone_gives_naive_time :
  let w := sample_world (Some "foo")
             (always (answer 200 "" (fx_body "Mars/Olympus"))) in
  sample_gettz (JStr "Mars/Olympus") = OK None /\
  fst (get_latest_price sample_alnum string sample_Decimal sample_parse
         sample_gettz "fx:USD:CHF" w []) =
    OK {| price := "108.94000000";
          time := mk_datetime 2021 2 21 20 32 25 None;
          quote_currency := "CHF" |}.
Proof. intros w. split; reflexivity. Qed.

(** * Further properties *)

(** ** The entry points, step by step, for any input *)

Lemma latest_price_run (uni_alnum : ascii -> bool) (decimal : Type)
    (Decimal : json -> result decimal) (parse : json -> result datetime)
    (gettz : json -> result (option tzinfo)) (w : world) (ticker : string)
    (tr : list event) :
  get_latest_price uni_alnum decimal Decimal parse gettz ticker w tr =
    match _parse_ticker uni_alnum ticker ≫= unpack3 with
    | Raise e => (Raise e, tr)
    | OK (kind, symbol, base) =>
        match _do_fetch (latest_params kind symbol base) w tr with
        | (Raise e, tr') => (Raise e, tr')
        | (OK data, tr') =>
            (if String.eqb kind "price"
             then quote_price Decimal parse data base
             else fx_price Decimal parse gettz data base, tr')
        end
    end.
Proof.
  unfold get_latest_price, latest_params, quote_price, fx_price. unfold_M.
  destruct (_parse_ticker uni_alnum ticker) as [groups|]; [|reflexivity].
  destruct (unpack3 groups) as [[[kind symbol] base]|]; [|reflexivity].
  destruct (String.eqb kind "price").
  - fold (quote_params symbol).
    destruct (_do_fetch (quote_params symbol) w tr) as [[data|] tr'];
      [|reflexivity].
    destruct (py_getitem data "Global Quote") as [price_data|]; [|reflexivity].
    destruct (py_getitem price_data "05. price") as [x|]; [|reflexivity].
    destruct (Decimal x); [|reflexivity].
    destruct (py_getitem price_data "07. latest trading day") as [y|];
      [|reflexivity].
    destruct (parse y); reflexivity.
  - fold (fx_params symbol base).
    destruct (_do_fetch (fx_params symbol base) w tr) as [[data|] tr'];
      [|reflexivity].
    destruct (py_getitem data "Realtime Currency Exchange Rate")
      as [price_data|]; [|reflexivity].
    destruct (py_getitem price_data "5. Exchange Rate") as [x|]; [|reflexivity].
    destruct (Decimal x); [|reflexivity].
    destruct (py_getitem price_data "6. Last Refreshed") as [y|]; [|reflexivity].
    destruct (parse y); [|reflexivity].
    destruct (py_getitem price_data "7. Time Zone") as [zn|]; [|reflexivity].
    destruct (gettz zn); reflexivity.
Qed.

Lemma historical_price_run_any (uni_alnum : ascii -> bool)
    (uni_lower : ascii -> string) (short_year : Z -> string)
    (decimal : Type)
    (Decimal : json -> result decimal) (w : world) (ticker : string)
    (time : datetime) (tr : list event) :
  get_historical_price uni_alnum uni_lower short_year decimal Decimal ticker time w tr =
    match _parse_ticker uni_alnum ticker ≫= unpack3 with
    | Raise e => (Raise e, tr)
    | OK (kind, symbol, base) =>
        match older_than_limit w time with
        | Raise e => (Raise e, tr)
        | OK older =>
            if String.eqb kind "price" then
              match _do_fetch
                      (historical_params symbol
                         (if older : bool then "full" else "compact")) w tr with
              | (Raise e, tr') => (Raise e, tr')
              | (OK data, tr') =>
                  match premium_endpoint uni_lower data with
                  | Raise e => (Raise e, tr')
                  | OK true =>
                      (OK None,
                       (tr' ++ [EvLog INFO "Premium endpoint API key required."
                                  []])%list)
                  | OK false =>
                      match py_in "Time Series (Daily)" data with
                      | Raise e => (Raise e, tr')
                      | OK true => (series_price short_year Decimal data time base, tr')
                      | OK false =>
                          (OK None,
                           (tr' ++ [EvLog ERROR
                                      "Price data not found when expected: %s"
                                      [data]])%list)
                      end
                  end
              end
            else
              (OK None,
               (tr ++ [EvLog INFO "Currency exchange not implemented yet."
                         []])%list)
        end
    end.
Proof.
  unfold get_historical_price, series_price, older_than_limit, now_utc.
  unfold_M.
  destruct (_parse_ticker uni_alnum ticker) as [groups|]; [|reflexivity].
  destruct (unpack3 groups) as [[[kind symbol] base]|]; [|reflexivity].
  destruct (sub_days _ 130) as [limit|]; [|reflexivity].
  destruct (dt_lt time limit) as [older|]; [|reflexivity].
  destruct (String.eqb kind "price"); [|reflexivity].
  fold (historical_params symbol (if older then "full" else "compact")).
  destruct (_do_fetch _ w tr) as [[data|e] tr']; [|reflexivity].
  destruct (premium_endpoint uni_lower data) as [[]|]; try reflexivity.
  destruct (py_in "Time Series (Daily)" data) as [[]|]; try reflexivity.
  destruct (py_getitem data "Time Series (Daily)") as [price_data|]; [|reflexivity].
  destruct (seek_day short_year price_data time) as [day|]; [|reflexivity].
  destruct (py_getitem price_data (strftime_ymd short_year day)) as [day_data|]; [|reflexivity].
  destruct (py_getitem day_data "4. close") as [close|]; [|reflexivity].
  destruct (Decimal close); reflexivity.
Qed.

Lemma with_key_lookup (key : string) (params : gmap string string) :
  with_key key params !! "apikey" = Some key /\
  forall k, k <> "apikey" -> with_key key params !! k = params !! k.
Proof.
  unfold with_key. split; [apply lookup_insert_eq|].
  intros k Hk. apply lookup_insert_ne. congruence.
Qed.


(** ** Further results on [_do_fetch] *)

(** X1.  Whatever the body of the response the fetch ends up with holds,
    a status other than 200 makes the fetch raise the
    [AlphavantageApiError] with that status and the text of the
    response. *)
Theorem do_fetch_transport_error (w : world) (params : gmap string string)
    (tr : list event) (resp : response) (data : json) :
  settles_on w params tr resp data ->
  status_code resp <> codes_ok ->
  fst (_do_fetch params w tr) =
    Raise (AlphavantageApiError
             (InvalidStatus (status_code resp) (text resp))).
Proof.
  intros Hsettles Hstatus.
  rewrite (do_fetch_settles _ _ _ _ _ Hsettles). unfold verdict.
  apply Z.eqb_neq in Hstatus. now rewrite Hstatus.
Qed.

(** X2.  With the credential configured, a first response of status 200
    whose body has neither ["Note"] nor ["Error Message"] is returned as
    it is, after exactly one request and no sleep. *)
Theorem do_fetch_plain_success (w : world) (params : gmap string string)
    (tr : list event) (key : string) (first : response) (data : json) :
  environ w !! API_KEY = Some key ->
  server w (n_gets tr) URL (with_key key params) = OK first ->
  body first = OK data ->
  py_in "Note" data = OK false ->
  status_code first = codes_ok ->
  py_in "Error Message" data = OK false ->
  _do_fetch params w tr =
    (OK data, (tr ++ [EvGet URL (with_key key params)])%list).
Proof.
  intros Hkey Hfirst Hbody Hnote Hstatus Herror.
  rewrite (do_fetch_once _ _ _ _ _ _ Hkey Hfirst Hbody Hnote).
  unfold verdict. now rewrite Hstatus, Z.eqb_refl, Herror.
Qed.

(** X3.  With the credential configured, every request of a fetch goes to
    the one endpoint, with the key of the environment as [apikey] (also
    when the caller passed an [apikey] of its own) and every other
    parameter as the caller passed it. *)
Theorem do_fetch_requests_carry_key (w : world) (params : gmap string string)
    (tr : list event) (key : string) :
  environ w !! API_KEY = Some key ->
  exists evs,
    snd (_do_fetch params w tr) = (tr ++ evs)%list /\
    forall e, In e evs -> is_get e = true ->
      exists sent, e = EvGet URL sent /\
        sent !! "apikey" = Some key /\
        forall k, k <> "apikey" -> sent !! k = params !! k.
Proof.
  intros Hkey.
  destruct (do_fetch_events w params tr key Hkey) as (evs & Htrace & Hevs).
  exists (EvGet URL (with_key key params) :: evs). split; [exact Htrace|].
  intros e Hin Hget. exists (with_key key params).
  split; [|apply with_key_lookup].
  destruct Hin as [<- | Hin]; [reflexivity|].
  destruct Hevs as [-> | ->]; simpl in Hin; [contradiction|].
  destruct Hin as [<- | [<- | []]]; [discriminate | reflexivity].
Qed.

(** X4.  The status is looked at only once the body is decoded and
    searched for ["Note"]: when decoding the first response raises, the
    fetch raises the same after its one request, and when the body decodes
    to [null], a boolean or a number it raises [TypeError], whatever the
    status of the response. *)
Theorem do_fetch_unusable_body (w : world) (params : gmap string string)
    (tr : list event) (key : string) (first : response) :
  environ w !! API_KEY = Some key ->
  server w (n_gets tr) URL (with_key key params) = OK first ->
  (forall e, body first = Raise e ->
     _do_fetch params w tr =
       (Raise e, (tr ++ [EvGet URL (with_key key params)])%list)) /\
  (forall data, body first = OK data ->
     data = JNull \/ (exists b, data = JBool b) \/
     (exists literal, data = JNumber literal) ->
     _do_fetch params w tr =
       (Raise TypeError, (tr ++ [EvGet URL (with_key key params)])%list)).
Proof.
  intros Hkey Hfirst. split.
  - intros e Hbody. rewrite do_fetch_run, Hkey. cbn.
    now rewrite Hfirst, Hbody.
  - intros data Hbody Hshape. rewrite do_fetch_run, Hkey. cbn.
    rewrite Hfirst, Hbody.
    destruct Hshape as [-> | [[b ->] | [literal ->]]]; reflexivity.
Qed.

(** ** Further results on the entry points *)

Lemma parse_unpack (uni_alnum : ascii -> bool) (ticker kind symbol base : string) :
  _parse_ticker uni_alnum ticker = OK [kind; symbol; base] ->
  _parse_ticker uni_alnum ticker ≫= unpack3 = OK (kind, symbol, base).
Proof. intros ->. reflexivity. Qed.


Lemma parse_ticker_refuses (uni_alnum : ascii -> bool) (ticker : string) :
  (forall kind symbol base tail,
     ticker_fields uni_alnum kind symbol base ->
     tail = "" \/ tail = newline ->
     ticker <> ticker_string kind symbol base +:+ tail) ->
  _parse_ticker uni_alnum ticker = Raise (ValueError invalid_ticker).
Proof.
  intros Hnone.
  destruct (_parse_ticker uni_alnum ticker) as [groups|e] eqn:Hparse.
  - exfalso.
    apply parse_ticker_sound in Hparse
      as (kind & symbol & base & tail & _ & Hfields & Heq & Htail).
    exact (Hnone kind symbol base tail Hfields Htail Heq).
  - unfold _parse_ticker in Hparse.
    destruct (re_match (ticker_re uni_alnum) ticker); [discriminate|].
    symmetry. exact Hparse.
Qed.

(** X5.  For a string that is not a well-formed ticker (nor one followed
    by a newline), both entry points raise the [ValueError] for an invalid
    ticker and do nothing else: no request, no log record, whatever the
    environment, the clock and the [time] asked for. *)
Theorem invalid_ticker_no_effect (uni_alnum : ascii -> bool)
    (uni_lower : ascii -> string) (short_year : Z -> string)
    (decimal : Type)
    (Decimal : json -> result decimal) (parse : json -> result datetime)
    (gettz : json -> result (option tzinfo)) (w : world) (ticker : string)
    (time : datetime) (tr : list event) :
  (forall kind symbol base tail,
     ticker_fields uni_alnum kind symbol base ->
     tail = "" \/ tail = newline ->
     ticker <> ticker_string kind symbol base +:+ tail) ->
  get_latest_price uni_alnum decimal Decimal parse gettz ticker w tr =
    (Raise (ValueError invalid_ticker), tr) /\
  get_historical_price uni_alnum uni_lower short_year decimal Decimal ticker time w tr =
    (Raise (ValueError invalid_ticker), tr).
Proof.
  intros Hnone. apply parse_ticker_refuses in Hnone.
  rewrite latest_price_run, historical_price_run_any, Hnone.
  split; reflexivity.
Qed.

(** X6.  For a ticker of kind [price] whose fetch returned a well-formed
    quote, the latest price is the ["05. price"] field as a decimal, at
    the ["07. latest trading day"] as [parse] reads it with its zone
    replaced by UTC, in the base of the ticker. *)
Theorem latest_quote_price (uni_alnum : ascii -> bool) (decimal : Type)
    (Decimal : json -> result decimal) (parse : json -> result datetime)
    (gettz : json -> result (option tzinfo)) (w : world)
    (ticker symbol base : string) (tr tr' : list event)
    (data price_data quoted day : json) (p : decimal) (date : datetime) :
  _parse_ticker uni_alnum ticker = OK ["price"; symbol; base] ->
  _do_fetch (quote_params symbol) w tr = (OK data, tr') ->
  has_field data "Global Quote" price_data ->
  has_field price_data "05. price" quoted ->
  Decimal quoted = OK p ->
  has_field price_data "07. latest trading day" day ->
  parse day = OK date ->
  get_latest_price uni_alnum decimal Decimal parse gettz ticker w tr =
    (OK {| price := p; time := replace_tzinfo date (Some tzutc);
           quote_currency := base |}, tr').
Proof.
  intros Hparse Hfetch Hdata Hquoted Hdecimal Hday Hdate.
  rewrite latest_price_run, (parse_unpack _ _ _ _ _ Hparse).
  unfold latest_params. simpl. rewrite Hfetch. unfold quote_price.
  rewrite (has_field_getitem _ _ _ Hdata). simpl.
  rewrite (has_field_getitem _ _ _ Hquoted). simpl. rewrite Hdecimal. simpl.
  rewrite (has_field_getitem _ _ _ Hday). simpl. rewrite Hdate.
  reflexivity.
Qed.

(** X7.  The base of a [price] ticker is only a label: two tickers of kind
    [price] with the same symbol make [get_latest_price] send the same
    requests, and either fail alike or give the same price and time, each
    under its own base. *)
Theorem latest_price_base_is_a_label (uni_alnum : ascii -> bool)
    (decimal : Type) (Decimal : json -> result decimal)
    (parse : json -> result datetime) (gettz : json -> result (option tzinfo))
    (w : world) (ticker1 ticker2 symbol base1 base2 : string)
    (tr : list event) :
  _parse_ticker uni_alnum ticker1 = OK ["price"; symbol; base1] ->
  _parse_ticker uni_alnum ticker2 = OK ["price"; symbol; base2] ->
  snd (get_latest_price uni_alnum decimal Decimal parse gettz ticker1 w tr) =
  snd (get_latest_price uni_alnum decimal Decimal parse gettz ticker2 w tr) /\
  match
    fst (get_latest_price uni_alnum decimal Decimal parse gettz ticker1 w tr),
    fst (get_latest_price uni_alnum decimal Decimal parse gettz ticker2 w tr)
  with
  | OK sp1, OK sp2 =>
      price sp1 = price sp2 /\ time sp1 = time sp2 /\
      quote_currency sp1 = base1 /\ quote_currency sp2 = base2
  | Raise e1, Raise e2 => e1 = e2
  | _, _ => False
  end.
Proof.
  intros Hparse1 Hparse2.
  rewrite !latest_price_run.
  rewrite (parse_unpack _ _ _ _ _ Hparse1), (parse_unpack _ _ _ _ _ Hparse2).
  unfold latest_params. simpl.
  destruct (_do_fetch (quote_params symbol) w tr) as [[data|e] tr'];
    [|split; reflexivity].
  simpl. split; [reflexivity|]. unfold quote_price.
  destruct (py_getitem data "Global Quote") as [price_data|]; [|reflexivity].
  simpl.
  destruct (py_getitem price_data "05. price") as [x|]; [|reflexivity].
  simpl. destruct (Decimal x); [|reflexivity]. simpl.
  destruct (py_getitem price_data "07. latest trading day") as [y|];
    [|reflexivity].
  simpl. destruct (parse y); [|reflexivity].
  simpl. repeat split.
Qed.

(** X8.  When the body the fetch returned is an object without the entry
    the kind of the ticker calls for, [get_latest_price] raises the
    [KeyError] that names that entry: ["Global Quote"] for [price],
    ["Realtime Currency Exchange Rate"] for [fx]. *)
Theorem latest_price_missing_object (uni_alnum : ascii -> bool)
    (decimal : Type) (Decimal : json -> result decimal)
    (parse : json -> result datetime) (gettz : json -> result (option tzinfo))
    (w : world) (ticker kind symbol base : string) (tr tr' : list event)
    (m : gmap string json) :
  _parse_ticker uni_alnum ticker = OK [kind; symbol; base] ->
  _do_fetch (latest_params kind symbol base) w tr = (OK (JDict m), tr') ->
  let wanted := if String.eqb kind "price" then "Global Quote"
                else "Realtime Currency Exchange Rate" in
  m !! wanted = None ->
  get_latest_price uni_alnum decimal Decimal parse gettz ticker w tr =
    (Raise (KeyError wanted), tr').
Proof.
  intros Hparse Hfetch wanted Hnone. subst wanted.
  rewrite latest_price_run, (parse_unpack _ _ _ _ _ Hparse), Hfetch.
  unfold quote_price, fx_price.
  destruct (String.eqb kind "price"); simpl; now rewrite Hnone.
Qed.

(** X9.  A rate limit that lasts through the retry reaches the caller of
    [get_latest_price] as a [KeyError]: when the first body carries
    ["Note"] and the answer to the repeated request (status 200, no
    ["Error Message"]) is an object that still lacks the entry the kind
    calls for, the call raises the [KeyError] naming that entry, after the
    request, a sleep of 60 seconds and the same request again. *)
Theorem latest_price_rate_limited (uni_alnum : ascii -> bool)
    (decimal : Type) (Decimal : json -> result decimal)
    (parse : json -> result datetime) (gettz : json -> result (option tzinfo))
    (w : world) (ticker kind symbol base key : string) (tr : list event)
    (first second : response) (first_data : json) (m : gmap string json) :
  _parse_ticker uni_alnum ticker = OK [kind; symbol; base] ->
  environ w !! API_KEY = Some key ->
  let sent := with_key key (latest_params kind symbol base) in
  let wanted := if String.eqb kind "price" then "Global Quote"
                else "Realtime Currency Exchange Rate" in
  server w (n_gets tr) URL sent = OK first ->
  body first = OK first_data ->
  py_in "Note" first_data = OK true ->
  server w (S (n_gets tr)) URL sent = OK second ->
  body second = OK (JDict m) ->
  status_code second = codes_ok ->
  m !! "Error Message" = None ->
  m !! wanted = None ->
  get_latest_price uni_alnum decimal Decimal parse gettz ticker w tr =
    (Raise (KeyError wanted),
     (tr ++ [EvGet URL sent; EvSleep 60; EvGet URL sent])%list).
Proof.
  intros Hparse Hkey sent wanted Hfirst Hbody Hnote Hsecond Hbody2 Hstatus
    Herror Hnone. subst sent wanted.
  rewrite latest_price_run, (parse_unpack _ _ _ _ _ Hparse).
  rewrite (do_fetch_retry _ _ _ _ _ _ _ _ Hkey Hfirst Hbody Hnote Hsecond Hbody2).
  unfold verdict. rewrite Hstatus, Z.eqb_refl. simpl. rewrite Herror.
  rewrite bool_decide_eq_false_2 by (intros [? ?]; discriminate).
  unfold quote_price, fx_price.
  destruct (String.eqb kind "price"); simpl; now rewrite Hnone.
Qed.

(** X10.  The same lasting rate limit reaches the caller of
    [get_historical_price] as an absent price: when the answer to the
    repeated request is an object with neither ["Error Message"] nor
    ["Information"] nor the series, the call returns [None], after the two
    requests, the sleep and an ERROR record that shows the body. *)
Theorem historical_price_rate_limited (uni_alnum : ascii -> bool)
    (uni_lower : ascii -> string) (short_year : Z -> string)
    (decimal : Type)
    (Decimal : json -> result decimal) (w : world)
    (ticker symbol base key : string) (time : datetime) (z : tzinfo)
    (tr : list event) (first second : response) (first_data : json)
    (m : gmap string json) :
  _parse_ticker uni_alnum ticker = OK ["price"; symbol; base] ->
  dt_tzinfo time = Some z ->
  clock_ok w ->
  environ w !! API_KEY = Some key ->
  let sent := with_key key (historical_params symbol (output_size w time z)) in
  server w (n_gets tr) URL sent = OK first ->
  body first = OK first_data ->
  py_in "Note" first_data = OK true ->
  server w (S (n_gets tr)) URL sent = OK second ->
  body second = OK (JDict m) ->
  status_code second = codes_ok ->
  m !! "Error Message" = None ->
  m !! "Information" = None ->
  m !! "Time Series (Daily)" = None ->
  get_historical_price uni_alnum uni_lower short_year decimal Decimal ticker time w tr =
    (OK None,
     (tr ++ [EvGet URL sent; EvSleep 60; EvGet URL sent;
             EvLog ERROR "Price data not found when expected: %s"
               [JDict m]])%list).
Proof.
  intros Hparse Hz Hclock Hkey sent Hfirst Hbody Hnote Hsecond Hbody2 Hstatus
    Herror Hinfo Hseries. subst sent.
  rewrite (historical_price_run _ _ _ _ _ _ _ _ _ _ _ z tr Hparse Hz Hclock).
  simpl.
  rewrite (do_fetch_retry _ _ _ _ _ _ _ _ Hkey Hfirst Hbody Hnote Hsecond Hbody2).
  unfold verdict. rewrite Hstatus, Z.eqb_refl. simpl. rewrite Herror.
  rewrite bool_decide_eq_false_2 by (intros [? ?]; discriminate).
  rewrite (premium_endpoint_no_field _ _ Hinfo). simpl. rewrite Hseries.
  rewrite bool_decide_eq_false_2 by (intros [? ?]; discriminate).
  rewrite <- app_assoc. reflexivity.
Qed.

(** X11.  When the series has an entry for the day of [time] itself, the
    historical lookup returns its close with [time] exactly as it was
    asked for. *)
Theorem historical_price_same_day (uni_alnum : ascii -> bool)
    (uni_lower : ascii -> string) (short_year : Z -> string)
    (decimal : Type)
    (Decimal : json -> result decimal) (w : world)
    (ticker symbol base : string) (time : datetime) (z : tzinfo)
    (tr tr' : list event) (data : json) (series : gmap string json)
    (day_data close : json) (p : decimal) :
  _parse_ticker uni_alnum ticker = OK ["price"; symbol; base] ->
  dt_tzinfo time = Some z ->
  clock_ok w ->
  _do_fetch (historical_params symbol (output_size w time z)) w tr =
    (OK data, tr') ->
  premium_endpoint uni_lower data = OK false ->
  has_field data "Time Series (Daily)" (JDict series) ->
  series !! strftime_ymd short_year time = Some day_data ->
  has_field day_data "4. close" close ->
  Decimal close = OK p ->
  get_historical_price uni_alnum uni_lower short_year decimal Decimal ticker time w tr =
    (OK (Some {| price := p; time := time; quote_currency := base |}), tr').
Proof.
  intros Hparse Hz Hclock Hfetch Hpremium Hseries Hday Hclose Hdecimal.
  rewrite (historical_price_run _ _ _ _ _ _ _ _ _ _ _ z tr Hparse Hz Hclock).
  simpl. rewrite Hfetch, Hpremium, (has_field_in _ _ _ Hseries).
  unfold series_price. rewrite (has_field_getitem _ _ _ Hseries). simpl.
  rewrite seek_day_step, present_dict, Hday.
  rewrite bool_decide_eq_true_2 by eauto.
  simpl. rewrite Hday. simpl.
  rewrite (has_field_getitem _ _ _ Hclose). simpl. rewrite Hdecimal.
  reflexivity.
Qed.

(** X12.  When the day the search stops at has an entry without
    ["4. close"], the historical lookup raises the [KeyError] that names
    the field. *)
Theorem historical_price_missing_close (uni_alnum : ascii -> bool)
    (uni_lower : ascii -> string) (short_year : Z -> string)
    (decimal : Type)
    (Decimal : json -> result decimal) (w : world)
    (ticker symbol base : string) (time : datetime) (z : tzinfo)
    (tr tr' : list event) (data : json) (series : gmap string json)
    (back : Z) (entry : gmap string json) :
  _parse_ticker uni_alnum ticker = OK ["price"; symbol; base] ->
  dt_tzinfo time = Some z ->
  clock_ok w ->
  1 <= ordinal time <= MAXORDINAL ->
  _do_fetch (historical_params symbol (output_size w time z)) w tr =
    (OK data, tr') ->
  premium_endpoint uni_lower data = OK false ->
  has_field data "Time Series (Daily)" (JDict series) ->
  0 <= back < ordinal time ->
  (forall j, 0 <= j < back ->
             series !! strftime_ymd short_year (days_before time j) = None) ->
  series !! strftime_ymd short_year (days_before time back) = Some (JDict entry) ->
  entry !! "4. close" = None ->
  get_historical_price uni_alnum uni_lower short_year decimal Decimal ticker time w tr =
    (Raise (KeyError "4. close"), tr').
Proof.
  intros Hparse Hz Hclock Hvalid Hfetch Hpremium Hseries Hback Habsent
    Hpresent Hclose.
  rewrite (historical_price_run _ _ _ _ _ _ _ _ _ _ _ z tr Hparse Hz Hclock).
  simpl. rewrite Hfetch, Hpremium, (has_field_in _ _ _ Hseries).
  unfold series_price. rewrite (has_field_getitem _ _ _ Hseries). simpl.
  assert (Hseek : seek_day short_year (JDict series) time = OK (days_before time back)).
  { replace back with (Z.of_nat (Z.to_nat back)) in * by lia.
    apply seek_day_finds; [lia | lia | exact Habsent |].
    rewrite Hpresent. eauto. }
  rewrite Hseek. simpl. rewrite Hpresent. simpl. rewrite Hclose.
  reflexivity.
Qed.


Lemma older_than_limit_naive (w : world) (time : datetime) :
  clock_ok w -> dt_tzinfo time = None ->
  older_than_limit w time = Raise TypeError.
Proof.
  intros [Hlo Hhi] Hnaive. unfold older_than_limit.
  rewrite sub_days_ok by (simpl; lia). simpl.
  unfold dt_lt. rewrite Hnaive. reflexivity.
Qed.


(** X14.  For a well-formed ticker of either kind and a [time] without a
    zone, the historical lookup raises [TypeError] at the comparison with
    the clock and does nothing else: no request and no log record. *)
Theorem historical_naive_time_raises (uni_alnum : ascii -> bool)
    (uni_lower : ascii -> string) (short_year : Z -> string)
    (decimal : Type)
    (Decimal : json -> result decimal) (w : world)
    (ticker kind symbol base : string) (time : datetime) (tr : list event) :
  _parse_ticker uni_alnum ticker = OK [kind; symbol; base] ->
  dt_tzinfo time = None ->
  clock_ok w ->
  get_historical_price uni_alnum uni_lower short_year decimal Decimal ticker time w tr =
    (Raise TypeError, tr).
Proof.
  intros Hparse Hnaive Hclock.
  rewrite historical_price_run_any, (parse_unpack _ _ _ _ _ Hparse).
  now rewrite (older_than_limit_naive _ _ Hclock Hnaive).
Qed.

(** X15.  Without the credential in the environment, [get_latest_price] on
    any well-formed ticker, and [get_historical_price] on a [price] ticker
    with an aware [time], raise the [KeyError] of the environment lookup
    and send nothing. *)
Theorem entry_points_require_api_key (uni_alnum : ascii -> bool)
    (uni_lower : ascii -> string) (short_year : Z -> string)
    (decimal : Type)
    (Decimal : json -> result decimal) (parse : json -> result datetime)
    (gettz : json -> result (option tzinfo)) (w : world)
    (ticker kind symbol base : string) (time : datetime) (tr : list event) :
  _parse_ticker uni_alnum ticker = OK [kind; symbol; base] ->
  environ w !! API_KEY = None ->
  get_latest_price uni_alnum decimal Decimal parse gettz ticker w tr =
    (Raise (KeyError API_KEY), tr) /\
  (kind = "price" -> aware time -> clock_ok w ->
   get_historical_price uni_alnum uni_lower short_year decimal Decimal ticker time w tr =
     (Raise (KeyError API_KEY), tr)).
Proof.
  intros Hparse Hkey. split.
  - rewrite latest_price_run, (parse_unpack _ _ _ _ _ Hparse).
    rewrite do_fetch_run, Hkey. reflexivity.
  - intros -> [z Hz] Hclock.
    rewrite (historical_price_run _ _ _ _ _ _ _ _ _ _ _ z tr Hparse Hz Hclock).
    simpl. rewrite do_fetch_run, Hkey. reflexivity.
Qed.

Lemma do_fetch_shape (w : world) (params : gmap string string) (tr : list event) :
  exists evs,
    snd (_do_fetch params w tr) = (tr ++ evs)%list /\
    (evs = [] \/
     (exists sent, evs = [EvGet URL sent]) \/
     (exists sent, evs = [EvGet URL sent; EvSleep 60; EvGet URL sent])).
Proof.
  rewrite do_fetch_run.
  destruct (environ w !! API_KEY) as [key|].
  2: { exists []. cbn. rewrite app_nil_r. auto. }
  cbn.
  destruct (server w (n_gets tr) URL _) as [first|]; [|eauto 6].
  destruct (body first) as [first_data|]; [|eauto 6].
  destruct (py_in "Note" first_data) as [[]|]; [|eauto 6..].
  destruct (server w (S (n_gets tr)) URL _) as [second|]; [|eauto 6].
  destruct (body second); eauto 6.
Qed.

Lemma shape_counts (evs : list event) :
  evs = [] \/
  (exists sent, evs = [EvGet URL sent]) \/
  (exists sent, evs = [EvGet URL sent; EvSleep 60; EvGet URL sent]) ->
  (n_gets evs <= 2)%nat /\ n_logs evs = 0%nat /\ 0 <= slept evs <= 60.
Proof.
  intros [-> | [[sent ->] | [sent ->]]]; cbn; repeat split; lia.
Qed.

Lemma counts_with_log (evs : list event) level text args :
  (n_gets evs <= 2)%nat /\ n_logs evs = 0%nat /\ 0 <= slept evs <= 60 ->
  (n_gets (evs ++ [EvLog level text args]) <= 2)%nat /\
  (n_logs (evs ++ [EvLog level text args]) <= 1)%nat /\
  0 <= slept (evs ++ [EvLog level text args]) <= 60.
Proof.
  intros (Hgets & Hlogs & Hslept).
  rewrite n_gets_app. unfold n_logs in *.
  rewrite List.filter_app, length_app, Hlogs.
  assert (Hs : slept (evs ++ [EvLog level text args]) = slept evs).
  { clear. induction evs as [|[] evs IH]; simpl; try rewrite IH; reflexivity. }
  rewrite Hs. cbn. repeat split; lia.
Qed.

(** X16.  Whatever the ticker, the time, the environment and the answers
    of the server: a call of [get_latest_price] adds to the trace at most
    two requests, sleeps at most 60 seconds in all and logs nothing; a
    call of [get_historical_price] adds at most two requests, sleeps at
    most 60 seconds and writes at most one log record. *)
Theorem entry_points_effects (uni_alnum : ascii -> bool)
    (uni_lower : ascii -> string) (short_year : Z -> string)
    (decimal : Type)
    (Decimal : json -> result decimal) (parse : json -> result datetime)
    (gettz : json -> result (option tzinfo)) (w : world) (ticker : string)
    (asked : datetime) (tr : list event) :
  (exists evs,
     snd (get_latest_price uni_alnum decimal Decimal parse gettz ticker w tr) =
       (tr ++ evs)%list /\
     (n_gets evs <= 2)%nat /\ n_logs evs = 0%nat /\ 0 <= slept evs <= 60) /\
  (exists evs,
     snd (get_historical_price uni_alnum uni_lower short_year decimal Decimal
            ticker asked w tr) = (tr ++ evs)%list /\
     (n_gets evs <= 2)%nat /\ (n_logs evs <= 1)%nat /\ 0 <= slept evs <= 60).
Proof.
  assert (Hnil : forall t : list event, t = (t ++ [])%list)
    by (intros; now rewrite app_nil_r).
  assert (Hnone : (n_gets [] <= 2)%nat /\ n_logs [] = 0%nat /\ 0 <= slept [] <= 60)
    by (cbn; repeat split; lia).
  assert (Hweak : forall evs,
            (n_gets evs <= 2)%nat /\ n_logs evs = 0%nat /\ 0 <= slept evs <= 60 ->
            (n_gets evs <= 2)%nat /\ (n_logs evs <= 1)%nat /\ 0 <= slept evs <= 60)
    by (intros evs (? & ? & ?); repeat split; lia).
  split.
  - rewrite latest_price_run.
    destruct (_parse_ticker uni_alnum ticker ≫= unpack3)
      as [[[kind symbol] base]|]; [|exists []; split; [apply Hnil | exact Hnone]].
    destruct (do_fetch_shape w (latest_params kind symbol base) tr)
      as (evs & Htrace & Hshape).
    exists evs. split; [|now apply shape_counts].
    destruct (_do_fetch _ w tr) as [[data|] tr']; exact Htrace.
  - rewrite historical_price_run_any.
    destruct (_parse_ticker uni_alnum ticker ≫= unpack3)
      as [[[kind symbol] base]|]; [|exists []; split; [apply Hnil | auto]].
    destruct (older_than_limit w asked) as [older|];
      [|exists []; split; [apply Hnil | auto]].
    destruct (String.eqb kind "price").
    2: { eexists. split; [reflexivity|].
         apply (counts_with_log [] _ _ _ Hnone). }
    destruct (do_fetch_shape w
                (historical_params symbol (if older then "full" else "compact"))
                tr) as (evs & Htrace & Hshape).
    apply shape_counts in Hshape.
    destruct (_do_fetch _ w tr) as [[data|] tr']; simpl in Htrace; subst tr'.
    2: { exists evs. split; [reflexivity | auto]. }
    destruct (premium_endpoint uni_lower data) as [[]|].
    + eexists. simpl. rewrite <- app_assoc. split; [reflexivity|].
      now apply counts_with_log.
    + destruct (py_in "Time Series (Daily)" data) as [[]|].
      * exists evs. split; [reflexivity | auto].
      * eexists. simpl. rewrite <- app_assoc. split; [reflexivity|].
        now apply counts_with_log.
      * exists evs. split; [reflexivity | auto].
    + exists evs. split; [reflexivity | auto].
Qed.

(** X17.  With the credential configured, [get_latest_price] on a
    well-formed ticker starts with its request: for kind [price] the
    function [GLOBAL_QUOTE] and the symbol, and no parameter that holds
    the base; for kind [fx] the function [CURRENCY_EXCHANGE_RATE] with the
    symbol as [from_currency] and the base as [to_currency].  Any further
    request of the call is the same request. *)
Theorem latest_price_request (uni_alnum : ascii -> bool) (decimal : Type)
    (Decimal : json -> result decimal) (parse : json -> result datetime)
    (gettz : json -> result (option tzinfo)) (w : world)
    (ticker kind symbol base key : string) (tr : list event) :
  _parse_ticker uni_alnum ticker = OK [kind; symbol; base] ->
  environ w !! API_KEY = Some key ->
  exists sent evs,
    snd (get_latest_price uni_alnum decimal Decimal parse gettz ticker w tr) =
      (tr ++ EvGet URL sent :: evs)%list /\
    (forall e, In e evs -> is_get e = true -> e = EvGet URL sent) /\
    sent !! "apikey" = Some key /\
    (kind = "price" ->
     sent = <["apikey" := key]>
              {[ "function" := "GLOBAL_QUOTE"; "symbol" := symbol ]}) /\
    (kind = "fx" ->
     sent = <["apikey" := key]>
              {[ "function" := "CURRENCY_EXCHANGE_RATE";
                 "from_currency" := symbol; "to_currency" := base ]}).
Proof.
  intros Hparse Hkey.
  rewrite latest_price_run, (parse_unpack _ _ _ _ _ Hparse).
  destruct (do_fetch_events w (latest_params kind symbol base) tr key Hkey)
    as (evs & Htrace & Hevs).
  exists (with_key key (latest_params kind symbol base)), evs.
  split; [|split; [|split; [|split]]].
  - destruct (_do_fetch _ w tr) as [[data|] tr']; exact Htrace.
  - intros e Hin Hget. destruct Hevs as [-> | ->]; simpl in Hin.
    + contradiction.
    + destruct Hin as [<- | [<- | []]]; [discriminate | reflexivity].
  - apply with_key_lookup.
  - intros ->. reflexivity.
  - intros ->. reflexivity.
Qed.

(** X18.  Errors of the fetch pass through the entry points as they are,
    with the trace the fetch left: whatever [_do_fetch] raises for the
    query of a well-formed ticker is what [get_latest_price] raises, and
    for a [price] ticker and an aware datetime what
    [get_historical_price] raises. *)
Theorem fetch_errors_propagate (uni_alnum : ascii -> bool)
    (uni_lower : ascii -> string) (short_year : Z -> string)
    (decimal : Type)
    (Decimal : json -> result decimal) (parse : json -> result datetime)
    (gettz : json -> result (option tzinfo)) (w : world)
    (ticker kind symbol base : string) (asked : datetime) (z : tzinfo)
    (tr : list event) :
  _parse_ticker uni_alnum ticker = OK [kind; symbol; base] ->
  (forall e tr',
     _do_fetch (latest_params kind symbol base) w tr = (Raise e, tr') ->
     get_latest_price uni_alnum decimal Decimal parse gettz ticker w tr =
       (Raise e, tr')) /\
  (kind = "price" -> dt_tzinfo asked = Some z -> clock_ok w ->
   forall e tr',
     _do_fetch (historical_params symbol (output_size w asked z)) w tr =
       (Raise e, tr') ->
     get_historical_price uni_alnum uni_lower short_year decimal Decimal
       ticker asked w tr = (Raise e, tr')).
Proof.
  intros Hparse. split.
  - intros e tr' Hfetch.
    now rewrite latest_price_run, (parse_unpack _ _ _ _ _ Hparse), Hfetch.
  - intros -> Hz Hclock e tr' Hfetch.
    rewrite (historical_price_run _ _ _ _ _ _ _ _ _ _ _ z tr Hparse Hz Hclock).
    simpl. now rewrite Hfetch.
Qed.

(** X19.  What [_parse_ticker] returns can be put together again: the
    groups are a kind [price] or [fx], a non-empty symbol without a colon
    and a non-empty base of word characters; joined by colons they give
    back the ticker, up to one final newline; and the joined string parses
    to the same groups. *)
Theorem parse_ticker_round_trip (uni_alnum : ascii -> bool)
    (ticker : string) (groups : list string) :
  _parse_ticker uni_alnum ticker = OK groups ->
  exists kind symbol base,
    groups = [kind; symbol; base] /\
    ticker_fields uni_alnum kind symbol base /\
    (ticker = ticker_string kind symbol base \/
     ticker = ticker_string kind symbol base +:+ newline) /\
    _parse_ticker uni_alnum (ticker_string kind symbol base) = OK groups.
Proof.
  intros Hparse.
  apply parse_ticker_sound in Hparse
    as (kind & symbol & base & tail & -> & Hfields & -> & Htail).
  exists kind, symbol, base. split; [reflexivity|]. split; [exact Hfields|].
  split.
  - destruct Htail as [-> | ->]; [left; apply append_nil_r | now right].
  - rewrite <- (append_nil_r (ticker_string kind symbol base)).
    apply parse_ticker_complete; [exact Hfields | now left].
Qed.

Lemma lower_append (uni_lower : ascii -> string) (a b : string) :
  lower uni_lower (a +:+ b) = lower uni_lower a +:+ lower uni_lower b.
Proof.
  induction a as [|c a IH]; [reflexivity|].
  rewrite append_cons. simpl. now rewrite IH, append_assoc.
Qed.

Lemma is_substring_append (needle before after : string) :
  is_substring needle (before +:+ needle +:+ after) = true.
Proof.
  assert (Hstep : forall hay,
            is_substring needle hay =
              String.prefix needle hay ||
              match hay with
              | EmptyString => false
              | String _ hay' => is_substring needle hay'
              end) by (intros []; reflexivity).
  induction before as [|c before IH].
  - rewrite append_nil_l, Hstep, prefix_append. reflexivity.
  - rewrite append_cons, Hstep, IH. apply orb_true_r.
Qed.

(** X20.  The premium-tier notice is recognised anywhere in the
    ["Information"] text and in any letter case: when the text holds, at
    any place, a run of characters that [lower] turns into
    "premium endpoint", the test answers true. *)
Theorem premium_endpoint_any_case (uni_lower : ascii -> string) (data : json)
    (before notice after : string) :
  has_field data "Information" (JStr (before +:+ notice +:+ after)) ->
  lower uni_lower notice = "premium endpoint" ->
  premium_endpoint uni_lower data = OK true.
Proof.
  intros Hinfo Hnotice.
  rewrite (premium_endpoint_string _ _ _ Hinfo).
  rewrite !lower_append, Hnotice. now rewrite is_substring_append.
Qed.

(** ** The further results on sample inputs *)

(** The 404 of [test_error_network]. *)
Lemma do_fetch_transport_error_witness :
  let w := sample_world (Some "foo") (always (answer 404 "" (JStr "Foobar"))) in
  fst (_do_fetch ∅ w []) =
    Raise (AlphavantageApiError (InvalidStatus 404 "")).
Proof.
  intros w.
  apply (do_fetch_transport_error w ∅ [] (answer 404 "" (JStr "Foobar"))
           (JStr "Foobar")).
  - exists "foo", (answer 404 "" (JStr "Foobar")), (JStr "Foobar").
    repeat split. left. repeat split.
  - discriminate.
Defined.

Lemma do_fetch_plain_success_witness :
  let w := sample_world (Some "foo") (always (answer 200 "" quote_body)) in
  _do_fetch (quote_params "FOO") w [] =
    (OK quote_body, [EvGet URL (with_key "foo" (quote_params "FOO"))]).
Proof.
  intros w.
  exact (do_fetch_plain_success w (quote_params "FOO") [] "foo"
           (answer 200 "" quote_body) quote_body
           eq_refl eq_refl eq_refl eq_refl eq_refl eq_refl).
Defined.

(** A caller that passes a key of its own still sends the configured one. *)
Lemma do_fetch_requests_carry_key_witness :
  let w := sample_world (Some "foo") (always (answer 200 "" quote_body)) in
  let params : gmap string string := {[ "apikey" := "mine"; "symbol" := "FOO" ]} in
  exists evs,
    snd (_do_fetch params w []) = evs /\
    forall e, In e evs -> is_get e = true ->
      exists sent, e = EvGet URL sent /\
        sent !! "apikey" = Some "foo" /\
        forall k, k <> "apikey" -> sent !! k = params !! k.
Proof.
  intros w params.
  exact (do_fetch_requests_carry_key w params [] "foo" eq_refl).
Defined.

Lemma do_fetch_unusable_body_witness :
  let page := sample_world (Some "foo") (always error_page) in
  let null := sample_world (Some "foo") (always (answer 200 "" JNull)) in
  _do_fetch ∅ page [] =
    (Raise (LibraryError "JSONDecodeError"), [EvGet URL (with_key "foo" ∅)]) /\
  _do_fetch ∅ null [] = (Raise TypeError, [EvGet URL (with_key "foo" ∅)]).
Proof.
  intros page null. split.
  - exact (proj1 (do_fetch_unusable_body page ∅ [] "foo" error_page
                    eq_refl eq_refl) _ eq_refl).
  - exact (proj2 (do_fetch_unusable_body null ∅ [] "foo" (answer 200 "" JNull)
                    eq_refl eq_refl) JNull eq_refl (or_introl eq_refl)).
Defined.

(** [INVALID], as in [test_error_invalid_ticker], in a world without a
    key. *)
Lemma invalid_ticker_no_effect_witness :
  let w := sample_world None (always error_page) in
  get_latest_price sample_alnum string sample_Decimal sample_parse sample_gettz
    "INVALID" w [] = (Raise (ValueError invalid_ticker), []) /\
  get_historical_price sample_alnum sample_lower sample_year string sample_Decimal
    "INVALID" naive_sunday w [] = (Raise (ValueError invalid_ticker), []).
Proof.
  intros w.
  apply (invalid_ticker_no_effect sample_alnum sample_lower sample_year string
           sample_Decimal sample_parse sample_gettz w "INVALID" naive_sunday []).
  intros kind symbol base tail Hfields Htail Heq.
  pose proof (parse_ticker_complete _ _ _ _ _ Hfields Htail) as Hparse.
  rewrite <- Heq in Hparse. discriminate Hparse.
Defined.

(** The quote of [test_valid_response_price]. *)
Lemma latest_quote_price_witness :
  let w := sample_world (Some "foo") (always (answer 200 "" quote_body)) in
  get_latest_price sample_alnum string sample_Decimal sample_parse sample_gettz
    "price:FOO:USD" w [] =
    (OK {| price := "144.7400";
           time := mk_datetime 2021 1 21 0 0 0 (Some tzutc);
           quote_currency := "USD" |},
     [EvGet URL (with_key "foo" (quote_params "FOO"))]).
Proof.
  intros w.
  apply (latest_quote_price sample_alnum string sample_Decimal sample_parse
           sample_gettz w "price:FOO:USD" "FOO" "USD" [] _ quote_body
           (JDict {[ "05. price" := JStr "144.7400";
                     "07. latest trading day" := JStr "2021-01-21" ]})
           (JStr "144.7400") (JStr "2021-01-21") "144.7400"
           (mk_datetime 2021 1 21 0 0 0 None));
    try reflexivity; eexists; split; reflexivity.
Defined.

Lemma latest_price_base_is_a_label_witness :
  let w := sample_world (Some "foo") (always (answer 200 "" quote_body)) in
  let run ticker :=
    get_latest_price sample_alnum string sample_Decimal sample_parse
      sample_gettz ticker w [] in
  snd (run "price:FOO:USD") = snd (run "price:FOO:EUR") /\
  match fst (run "price:FOO:USD"), fst (run "price:FOO:EUR") with
  | OK sp1, OK sp2 =>
      price sp1 = price sp2 /\ time sp1 = time sp2 /\
      quote_currency sp1 = "USD" /\ quote_currency sp2 = "EUR"
  | Raise e1, Raise e2 => e1 = e2
  | _, _ => False
  end.
Proof.
  intros w run.
  exact (latest_price_base_is_a_label sample_alnum string sample_Decimal
           sample_parse sample_gettz w "price:FOO:USD" "price:FOO:EUR"
           "FOO" "USD" "EUR" [] eq_refl eq_refl).
Defined.

Lemma latest_price_missing_object_witness :
  let w := sample_world (Some "foo") (always (answer 200 "" (JDict ∅))) in
  get_latest_price sample_alnum string sample_Decimal sample_parse sample_gettz
    "fx:USD:CHF" w [] =
    (Raise (KeyError "Realtime Currency Exchange Rate"),
     [EvGet URL (with_key "foo" (fx_params "USD" "CHF"))]).
Proof.
  intros w.
  exact (latest_price_missing_object sample_alnum string sample_Decimal
           sample_parse sample_gettz w "fx:USD:CHF" "fx" "USD" "CHF" [] _ ∅
           eq_refl eq_refl eq_refl).
Defined.

(** The note on a 503 and again on the 200 that follows. *)
Lemma latest_price_rate_limited_witness :
  let w := sample_world (Some "foo") busy_twice in
  let sent := with_key "foo" (quote_params "IBM") in
  get_latest_price sample_alnum string sample_Decimal sample_parse sample_gettz
    "price:IBM:USD" w [] =
    (Raise (KeyError "Global Quote"),
     [EvGet URL sent; EvSleep 60; EvGet URL sent]).
Proof.
  intros w sent.
  exact (latest_price_rate_limited sample_alnum string sample_Decimal
           sample_parse sample_gettz w "price:IBM:USD" "price" "IBM" "USD"
           "foo" [] (answer 503 "Service Unavailable" rate_limited)
           (answer 200 "" rate_limited) rate_limited
           {[ "Note" := JStr "Thank you for using Alpha Vantage!" ]}
           eq_refl eq_refl eq_refl eq_refl eq_refl eq_refl eq_refl eq_refl
           eq_refl eq_refl).
Defined.

Lemma historical_price_rate_limited_witness :
  let w := sample_world (Some "foo") busy_twice in
  let sent := with_key "foo" (historical_params "IBM" "compact") in
  get_historical_price sample_alnum sample_lower sample_year string sample_Decimal
    "price:IBM:USD" sunday w [] =
    (OK None,
     [EvGet URL sent; EvSleep 60; EvGet URL sent;
      EvLog ERROR "Price data not found when expected: %s" [rate_limited]]).
Proof.
  intros w sent.
  exact (historical_price_rate_limited sample_alnum sample_lower sample_year string
           sample_Decimal w "price:IBM:USD" "IBM" "USD" "foo" sunday tzutc []
           (answer 503 "Service Unavailable" rate_limited)
           (answer 200 "" rate_limited) rate_limited
           {[ "Note" := JStr "Thank you for using Alpha Vantage!" ]}
           eq_refl eq_refl (sample_clock_ok _ _) eq_refl eq_refl eq_refl
           eq_refl eq_refl eq_refl eq_refl eq_refl eq_refl eq_refl).
Defined.

(** Friday's close for a lookup on that Friday, as in
    [test_get_historical_price]. *)
Lemma historical_price_same_day_witness :
  let w := sample_world (Some "foo") (always (answer 200 "" response_tsda)) in
  get_historical_price sample_alnum sample_lower sample_year string sample_Decimal
    "price:IBM:USD" friday w [] =
    (OK (Some {| price := "227.48"; time := friday; quote_currency := "USD" |}),
     [EvGet URL (with_key "foo" (historical_params "IBM" "compact"))]).
Proof.
  intros w.
  apply (historical_price_same_day sample_alnum sample_lower sample_year string
           sample_Decimal w "price:IBM:USD" "IBM" "USD" friday tzutc [] _
           response_tsda sample_series (day_entry "238.0" "227.48")
           (JStr "227.48") "227.48"); try reflexivity.
  - apply sample_clock_ok.
  - eexists. split; reflexivity.
  - eexists. split; reflexivity.
Defined.

Lemma historical_price_missing_close_witness :
  let w := sample_world (Some "foo") (always (answer 200 "" bare_series)) in
  get_historical_price sample_alnum sample_lower sample_year string sample_Decimal
    "price:IBM:USD" sunday w [] =
    (Raise (KeyError "4. close"),
     [EvGet URL (with_key "foo" (historical_params "IBM" "compact"))]).
Proof.
  intros w.
  apply (historical_price_missing_close sample_alnum sample_lower sample_year string
           sample_Decimal w "price:IBM:USD" "IBM" "USD" sunday tzutc [] _
           bare_series
           {[ "2025-04-04" := JDict {[ "1. open" := JStr "238.0" ]} ]}
           2 {[ "1. open" := JStr "238.0" ]}); try reflexivity.
  - apply sample_clock_ok.
  - exact sunday_valid.
  - eexists. split; reflexivity.
  - split; [discriminate | reflexivity].
  - intros j Hj.
    assert (j = 0 \/ j = 1) as [-> | ->] by lia; reflexivity.
Defined.


Lemma historical_naive_time_raises_witness :
  let w := sample_world (Some "foo") (always (answer 200 "" response_tsda)) in
  dt_tzinfo naive_sunday = None /\
  get_historical_price sample_alnum sample_lower sample_year string sample_Decimal
    "price:IBM:USD" naive_sunday w [] = (Raise TypeError, []).
Proof.
  intros w. split; [reflexivity|].
  exact (historical_naive_time_raises sample_alnum sample_lower sample_year string
           sample_Decimal w "price:IBM:USD" "price" "IBM" "USD" naive_sunday []
           eq_refl eq_refl (sample_clock_ok _ _)).
Defined.

Lemma entry_points_require_api_key_witness :
  let w := sample_world None (always (answer 200 "" response_tsda)) in
  get_latest_price sample_alnum string sample_Decimal sample_parse sample_gettz
    "price:IBM:USD" w [] = (Raise (KeyError API_KEY), []) /\
  get_historical_price sample_alnum sample_lower sample_year string sample_Decimal
    "price:IBM:USD" sunday w [] = (Raise (KeyError API_KEY), []).
Proof.
  intros w.
  destruct (entry_points_require_api_key sample_alnum sample_lower sample_year string
              sample_Decimal sample_parse sample_gettz w "price:IBM:USD"
              "price" "IBM" "USD" sunday [] eq_refl eq_refl)
    as [Hlatest Hhistorical].
  split; [exact Hlatest|].
  apply Hhistorical; [reflexivity | eexists; reflexivity | apply sample_clock_ok].
Defined.

(** The request of [test_valid_response_fx]. *)
Lemma latest_price_request_witness :
  let w := sample_world (Some "foo") (always (answer 200 "" (fx_body "UTC"))) in
  exists sent evs,
    snd (get_latest_price sample_alnum string sample_Decimal sample_parse
           sample_gettz "fx:USD:CHF" w []) = EvGet URL sent :: evs /\
    sent = <["apikey" := "foo"]>
             {[ "function" := "CURRENCY_EXCHANGE_RATE";
                "from_currency" := "USD"; "to_currency" := "CHF" ]}.
Proof.
  intros w.
  destruct (latest_price_request sample_alnum string sample_Decimal
              sample_parse sample_gettz w "fx:USD:CHF" "fx" "USD" "CHF" "foo" []
              eq_refl eq_refl)
    as (sent & evs & Htrace & _ & _ & _ & Hfx).
  exists sent, evs. split; [exact Htrace | exact (Hfx eq_refl)].
Defined.

(** The 404 of [test_error_network] and the error of
    [test_error_response], seen from [get_latest_price]. *)
Lemma fetch_errors_propagate_witness :
  let not_found := sample_world (Some "foo") (always (answer 404 "" (JStr "Foobar"))) in
  let refused := sample_world (Some "foo") (always (answer 200 "" error_body)) in
  fst (get_latest_price sample_alnum string sample_Decimal sample_parse
         sample_gettz "price:IBM:USD" not_found []) =
    Raise (AlphavantageApiError (InvalidStatus 404 "")) /\
  fst (get_historical_price sample_alnum sample_lower sample_year string sample_Decimal
         "price:IBM:USD" sunday refused []) =
    Raise (AlphavantageApiError (InvalidMessage (JStr "Something wrong"))).
Proof.
  intros not_found refused. split.
  - rewrite (proj1 (fetch_errors_propagate sample_alnum sample_lower sample_year string
                      sample_Decimal sample_parse sample_gettz not_found
                      "price:IBM:USD" "price" "IBM" "USD" sunday tzutc []
                      eq_refl) _ _ eq_refl).
    reflexivity.
  - rewrite (proj2 (fetch_errors_propagate sample_alnum sample_lower sample_year string
                      sample_Decimal sample_parse sample_gettz refused
                      "price:IBM:USD" "price" "IBM" "USD" sunday tzutc []
                      eq_refl) eq_refl eq_refl (sample_clock_ok _ _)
               _ _ eq_refl).
    reflexivity.
Defined.

Lemma parse_ticker_round_trip_witness :
  exists kind symbol base,
    ["fx"; "USD"; "CHF"] = [kind; symbol; base] /\
    ticker_fields sample_alnum kind symbol base /\
    ("fx:USD:CHF" +:+ newline = ticker_string kind symbol base \/
     "fx:USD:CHF" +:+ newline = ticker_string kind symbol base +:+ newline) /\
    _parse_ticker sample_alnum (ticker_string kind symbol base) =
      OK ["fx"; "USD"; "CHF"].
Proof.
  exact (parse_ticker_round_trip sample_alnum ("fx:USD:CHF" +:+ newline)
           ["fx"; "USD"; "CHF"] eq_refl).
Defined.

Lemma premium_endpoint_any_case_witness :
  premium_endpoint sample_lower
    (JDict {[ "Information" := JStr "This is a PREMIUM Endpoint." ]}) = OK true.
Proof.
  apply (premium_endpoint_any_case sample_lower _ "This is a "
           "PREMIUM Endpoint" ".").
  - eexists. split; reflexivity.
  - reflexivity.
Defined.
